(** * Invoice consolidation pipeline: a shallow embedding of [invoice_processor.py]

    The pipeline turns the per-page answers of a vision model into merged,
    deduplicated invoice records and a Markdown report.  Every stage works on
    the dynamically typed values that [json.loads] produces, so the embedding
    starts from a type of Python values, Python truthiness, and the
    equality-and-hash discipline of [dict] and [set] keys. *)

From Stdlib Require Import ZArith List String Ascii Bool Lia Permutation.
From Stdlib Require Import DecimalString SpecFloat.
From stdpp Require Import base list.

Local Open Scope Z_scope.

(** ** Python values *)

(** A [str] is its sequence of code points. *)
Definition pystr := list N.

(** The [str] written by an ASCII literal of the source. *)
Definition u (s : string) : pystr :=
  List.map N_of_ascii (list_ascii_of_string s).

(** What [json.loads] can return, and what the stages build from it.  A [dict]
    is the list of its entries in insertion order; its keys are the hashable
    values.  [float] is IEEE binary64, without NaN payloads.  An [int] stays
    below the interpreter's limit for conversion to [str]. *)
#[warnings="-register-all"]
Inductive value : Type :=
| VNone
| VBool (b : bool)
| VInt (z : Z)
| VFloat (f : spec_float)
| VStr (s : pystr)
| VList (l : list value)
| VDict (d : list (value * value)).

Definition dict := list (value * value).

Inductive exn : Type :=
| TypeError
| AttributeError
| ValueError
| KeyError
| IndexError
| Exception (msg : pystr).

(** ** Exceptions as results *)

Inductive result (A : Type) : Type :=
| Ok (a : A)
| Raise (e : exn).
Arguments Ok {A} a.
Arguments Raise {A} e.

Definition rbind {A B : Type} (r : result A) (k : A -> result B) : result B :=
  match r with
  | Ok a => k a
  | Raise e => Raise e
  end.

Notation "'let!' x ':=' r 'in' k" := (rbind r (fun x => k))
  (at level 10, x pattern, r at level 100, k at level 200).

Definition is_ok {A : Type} (r : result A) : bool :=
  match r with Ok _ => true | Raise _ => false end.

(** [for x in xs: st = body(st, x)], stopping at the first exception. *)
Fixpoint for_each {A S : Type} (body : S -> A -> result S) (xs : list A) (st : S)
  : result S :=
  match xs with
  | [] => Ok st
  | x :: rest => let! st' := body st x in for_each body rest st'
  end.

(** ** Truthiness: the test of [if x:] *)

Definition float_is_zero (f : spec_float) : bool :=
  match f with S754_zero _ => true | _ => false end.

Definition truthy (v : value) : bool :=
  match v with
  | VNone => false
  | VBool b => b
  | VInt z => negb (z =? 0)
  | VFloat f => negb (float_is_zero f)
  | VStr s => match s with [] => false | _ => true end
  | VList l => match l with [] => false | _ => true end
  | VDict d => match d with [] => false | _ => true end
  end.

(** ** Keys of dicts and sets

    A [dict] or [set] finds a key by hash and [==].  Numbers compare by
    their mathematical value whatever their type ([True == 1 == 1.0]), a
    [str] equals only a [str] with the same characters, [None] only [None];
    lists and dicts have no hash.  An [atom] is the class of a hashable value
    under [==]: two hashable values are the same key exactly when their atoms
    are equal.  A number [m * 2^e] is kept with [m] odd (or as [0 * 2^0]).
    The NaN of [json.loads] is one object, which containers find by
    identity, hence one atom. *)
Inductive atom : Type :=
| ANone
| ANum (m e : Z)
| AInf (neg : bool)
| ANan
| AStr (s : pystr).

Global Instance atom_eq_dec : EqDecision atom.
Proof. solve_decision. Defined.

Fixpoint strip2 (m : positive) (e : Z) : positive * Z :=
  match m with
  | xO m' => strip2 m' (e + 1)
  | _ => (m, e)
  end.

Definition num_atom (neg : bool) (m : positive) (e : Z) : atom :=
  let '(m', e') := strip2 m e in
  ANum (if neg then Zneg m' else Zpos m') e'.

Definition int_atom (z : Z) : atom :=
  match z with
  | Z0 => ANum 0 0
  | Zpos p => num_atom false p 0
  | Zneg p => num_atom true p 0
  end.

Definition float_atom (f : spec_float) : atom :=
  match f with
  | S754_zero _ => ANum 0 0
  | S754_infinity s => AInf s
  | S754_nan => ANan
  | S754_finite s m e => num_atom s m e
  end.

(** [hash(v)], as far as a container uses it; [TypeError: unhashable type]
    for a list or a dict. *)
Definition hash_value (v : value) : result atom :=
  match v with
  | VNone => Ok ANone
  | VBool b => Ok (int_atom (if b then 1 else 0))
  | VInt z => Ok (int_atom z)
  | VFloat f => Ok (float_atom f)
  | VStr s => Ok (AStr s)
  | VList _ => Raise TypeError
  | VDict _ => Raise TypeError
  end.

Definition hashable (v : value) : bool := is_ok (hash_value v).

(** ** Dict operations *)

Definition key_is (a : atom) (k : value) : bool :=
  match hash_value k with
  | Ok b => bool_decide (a = b)
  | Raise _ => false
  end.

(** The entry stored under the key of class [a], if any. *)
Fixpoint dict_lookup (a : atom) (d : dict) : option value :=
  match d with
  | [] => None
  | (k, v) :: rest => if key_is a k then Some v else dict_lookup a rest
  end.

(** [d[k] = v] for a key of class [a]: an existing entry keeps its place and
    its key object, a new one goes last. *)
Fixpoint dict_store (a : atom) (k v : value) (d : dict) : dict :=
  match d with
  | [] => [(k, v)]
  | (k', v') :: rest =>
      if key_is a k' then (k', v) :: rest
      else (k', v') :: dict_store a k v rest
  end.

(** [d.get(k)] with the default left to the caller: [None] here is "absent". *)
Definition dict_get (k : string) (d : dict) : option value :=
  dict_lookup (AStr (u k)) d.

(** [d.get(k)]: an absent key reads as Python's [None]. *)
Definition get (k : string) (d : dict) : value :=
  default VNone (dict_get k d).

(** [d.get(k, dflt)]. *)
Definition get_or (k : string) (dflt : value) (d : dict) : value :=
  default dflt (dict_get k d).

(** [d[k] = v] for a literal key. *)
Definition dict_set (k : string) (v : value) (d : dict) : dict :=
  dict_store (AStr (u k)) (VStr (u k)) v d.

(** [d[k]] for a literal key. *)
Definition getitem (k : string) (d : dict) : result value :=
  match dict_get k d with
  | Some v => Ok v
  | None => Raise KeyError
  end.

(** The elements a [for] loop, [list.extend] or [dict.update] draws from a
    value: the items of a list, the one-character strings of a [str], the
    keys of a dict; anything else is not iterable. *)
Definition iter_value (x : value) : result (list value) :=
  match x with
  | VList xs => Ok xs
  | VStr s => Ok (List.map (fun c => VStr [c]) s)
  | VDict d => Ok (List.map fst d)
  | _ => Raise TypeError
  end.

(** [l.extend(x)], returning the extended list. *)
Definition list_extend (l x : value) : result value :=
  match l with
  | VList items => let! xs := iter_value x in Ok (VList (items ++ xs))
  | _ => Raise AttributeError
  end.

(** One element of the sequence given to [dict.update]: it must itself
    yield exactly two elements, the key and the value. *)
Definition pair_of (x : value) : result (value * value) :=
  let! xs := iter_value x in
  match xs with
  | [k; v] => Ok (k, v)
  | _ => Raise ValueError
  end.

Definition store_item (d : dict) (kv : value * value) : result dict :=
  let! a := hash_value (fst kv) in
  Ok (dict_store a (fst kv) (snd kv) d).

(** [t.update(other)], returning the updated dict: [other] is a dict, or
    else an iterable of key/value pairs. *)
Definition dict_update (t other : value) : result value :=
  match t with
  | VDict d =>
      match other with
      | VDict d2 => let! d' := for_each store_item d2 d in Ok (VDict d')
      | _ =>
          let! xs := iter_value other in
          let! d' := for_each (fun d x => let! kv := pair_of x in store_item d kv) xs d in
          Ok (VDict d')
      end
  | _ => Raise AttributeError
  end.

(** ** Stage 3.1: [merge_multipage_invoices] *)

Module Merge.

(** The class of a page's grouping tuple
    [(inv.get("invoice_num"), inv.get("vendor_name"), inv.get("invoice_date"))];
    a tuple with an unhashable component has no hash. *)
Definition key := (atom * atom * atom)%type.

Definition page_key (inv : dict) : result key :=
  let! a := hash_value (get "invoice_num" inv) in
  let! b := hash_value (get "vendor_name" inv) in
  let! c := hash_value (get "invoice_date" inv) in
  Ok (a, b, c).

(** [grouped[key].append(inv)] on the [defaultdict(list)]: entries stay in
    the order in which their keys were first used. *)
Fixpoint group_append (k : key) (inv : dict) (grouped : list (key * list dict))
  : list (key * list dict) :=
  match grouped with
  | [] => [(k, [inv])]
  | (k', pages) :: rest =>
      if bool_decide (k = k') then (k', pages ++ [inv]) :: rest
      else (k', pages) :: group_append k inv rest
  end.

(** The first loop. *)
Definition group_pages (extracted_invoices : list dict)
  : result (list (key * list dict)) :=
  for_each (fun grouped inv =>
              let! k := page_key inv in Ok (group_append k inv grouped))
           extracted_invoices [].

(** The body of [for page_inv in pages]. *)
Definition merge_page (merged page_inv : dict) : result dict :=
  let! l := getitem "line_items" merged in
  let! l' := list_extend l (get_or "line_items" (VList []) page_inv) in
  let merged := dict_set "line_items" l' merged in
  let! merged :=
    if truthy (get "tax_breakdown" page_inv) then
      let! t := getitem "tax_breakdown" merged in
      let! other := getitem "tax_breakdown" page_inv in
      let! t' := dict_update t other in
      Ok (dict_set "tax_breakdown" t' merged)
    else Ok merged in
  let! merged :=
    if truthy (get "subtotal" page_inv) then
      let! v := getitem "subtotal" page_inv in
      Ok (dict_set "subtotal" v merged)
    else Ok merged in
  if truthy (get "total" page_inv) then
    let! v := getitem "total" page_inv in
    Ok (dict_set "total" v merged)
  else Ok merged.

(** The class of [(item.get("description"), item.get("hsn_sac"),
    item.get("quantity"), item.get("rate"))]. *)
Definition item_key_t := (atom * atom * atom * atom)%type.

Definition item_key (item : value) : result item_key_t :=
  match item with
  | VDict d =>
      let! a := hash_value (get "description" d) in
      let! b := hash_value (get "hsn_sac" d) in
      let! c := hash_value (get "quantity" d) in
      let! e := hash_value (get "rate" d) in
      Ok (a, b, c, e)
  | _ => Raise AttributeError
  end.

(** The body of [for item in merged["line_items"]], on the pair
    [(seen_items, unique_items)]. *)
Definition unique_step (st : list item_key_t * list value) (item : value)
  : result (list item_key_t * list value) :=
  let! k := item_key item in
  if bool_decide (k ∈ st.1) then Ok st
  else Ok (k :: st.1, st.2 ++ [item]).

(** The body of [for key, pages in grouped.items()]. *)
Definition merge_group (pages : list dict) : result dict :=
  match pages with
  | [] => Raise IndexError
  | first :: _ =>
      let merged := dict_set "line_items" (VList []) first in
      let merged := dict_set "tax_breakdown" (VDict []) merged in
      let! merged := for_each merge_page pages merged in
      let! l := getitem "line_items" merged in
      let! items := iter_value l in
      let! st := for_each unique_step items ([], []) in
      Ok (dict_set "line_items" (VList st.2) merged)
  end.

Definition merge_multipage_invoices (extracted_invoices : list dict)
  : result (list dict) :=
  let! grouped := group_pages extracted_invoices in
  for_each (fun merged_invoices g =>
              let! merged := merge_group g.2 in
              Ok (merged_invoices ++ [merged]))
           grouped [].

End Merge.

(** ** Stage 3.2: [deduplicate_invoices] *)

Module Dedup.

(** The class of [(inv.get("invoice_num"), inv.get("vendor_name"),
    inv.get("invoice_date"), inv.get("total"))]. *)
Definition key := (atom * atom * atom * atom)%type.

Definition dedup_key (inv : dict) : result key :=
  let! a := hash_value (get "invoice_num" inv) in
  let! b := hash_value (get "vendor_name" inv) in
  let! c := hash_value (get "invoice_date" inv) in
  let! e := hash_value (get "total" inv) in
  Ok (a, b, c, e).

Record state : Type := mk_state {
  seen_keys : list key;
  deduped_invoices : list dict;
  duplicates_count : nat
}.

Definition init : state := mk_state [] [] 0.

(** The body of [for inv in merged_invoices]. *)
Definition step (st : state) (inv : dict) : result state :=
  let! k := dedup_key inv in
  if bool_decide (k ∈ seen_keys st)
  then Ok (mk_state (seen_keys st) (deduped_invoices st) (S (duplicates_count st)))
  else Ok (mk_state (k :: seen_keys st) (deduped_invoices st ++ [inv])
                    (duplicates_count st)).

(** The loop, with the counter that the function only prints. *)
Definition run (merged_invoices : list dict) : result state :=
  for_each step merged_invoices init.

Definition deduplicate_invoices (merged_invoices : list dict) : result (list dict) :=
  let! st := run merged_invoices in
  Ok (deduped_invoices st).

End Dedup.

Global Instance exn_eq_dec : EqDecision exn.
Proof. solve_decision. Defined.

Global Instance result_eq_dec {A : Type} `{EqDecision A} : EqDecision (result A).
Proof. solve_decision. Defined.

(** ** Strings *)

Definition pipe : N := 124%N.
Definition slash : N := 47%N.
Definition rupee : pystr := [8377%N].

(** [c.isspace()]: what [str.strip()] removes. *)
Definition is_space (c : N) : bool :=
  ((9 <=? c) && (c <=? 13) || (28 <=? c) && (c <=? 32)
   || (c =? 133) || (c =? 160) || (c =? 5760)
   || (8192 <=? c) && (c <=? 8202) || (c =? 8232) || (c =? 8233)
   || (c =? 8239) || (c =? 8287) || (c =? 12288))%N.

Fixpoint lstrip (s : pystr) : pystr :=
  match s with
  | c :: rest => if is_space c then lstrip rest else s
  | [] => []
  end.

Definition strip (s : pystr) : pystr := rev (lstrip (rev (lstrip s))).

Fixpoint startswith (s prefix : pystr) : bool :=
  match prefix, s with
  | [], _ => true
  | p :: prefix', c :: s' => (p =? c)%N && startswith s' prefix'
  | _ :: _, [] => false
  end.

(** [s.find(c)] for a single character: its first index, or -1. *)
Fixpoint find_from (i : Z) (c : N) (s : pystr) : Z :=
  match s with
  | [] => -1
  | x :: rest => if (x =? c)%N then i else find_from (i + 1) c rest
  end.

Definition find (s : pystr) (c : N) : Z := find_from 0 c s.

(** [s.rfind(c)]: its last index, or -1. *)
Definition rfind (s : pystr) (c : N) : Z :=
  match find (rev s) c with
  | -1 => -1
  | i => Z.of_nat (length s) - 1 - i
  end.

(** A slice bound, brought into [0 .. len] as slicing does. *)
Definition clamp (len i : Z) : Z :=
  let i := if i <? 0 then i + len else i in
  Z.max 0 (Z.min len i).

(** [s[a:b]]. *)
Definition slice (s : pystr) (a b : Z) : pystr :=
  let len := Z.of_nat (length s) in
  let a := clamp len a in
  let b := clamp len b in
  take (Z.to_nat (b - a)) (drop (Z.to_nat a) s).

(** [s.replace(a, b)] for single characters. *)
Definition replace (a b : N) (s : pystr) : pystr :=
  List.map (fun c => if (c =? a)%N then b else c) s.

(** [str(z)] for an [int]. *)
Definition str_of_int (z : Z) : pystr := u (NilZero.string_of_int (Z.to_int z)).

(** ** What the interpreter and its libraries supply

    The stages call library functions whose tables and parsers are no part
    of this program: [json.loads] ([None]: it raises), [float] on a [str]
    ([None]: [ValueError]), [repr] (which is [str] for floats, lists and
    dicts), [str.upper] and [json.dumps]. *)
Record py_runtime : Type := {
  json_loads : pystr -> option value;
  float_of_str : pystr -> option spec_float;
  py_repr : value -> pystr;
  str_upper : pystr -> pystr;
  json_dumps : list dict -> pystr
}.

(** [str(v)], which is also how an f-string renders [{v}]. *)
Definition py_str (rt : py_runtime) (v : value) : pystr :=
  match v with
  | VNone => u "None"
  | VBool true => u "True"
  | VBool false => u "False"
  | VInt z => str_of_int z
  | VStr s => s
  | VFloat _ | VList _ | VDict _ => py_repr rt v
  end.

(** [float(z)]: the nearest binary64, ties to even; [OverflowError] beyond
    its range. *)
Definition float_of_int (z : Z) : option spec_float :=
  match binary_normalize 53 1024 z 0 false with
  | S754_infinity _ => None
  | f => Some f
  end.

(** [float(v)]; [None] when it raises. *)
Definition py_float (rt : py_runtime) (v : value) : option spec_float :=
  match v with
  | VBool b => float_of_int (if b then 1 else 0)
  | VInt z => float_of_int z
  | VFloat f => Some f
  | VStr s => float_of_str rt s
  | VNone | VList _ | VDict _ => None
  end.

(** Digits in groups of three, as the [,] of a format spec writes them. *)
Fixpoint group3 (digits : list N) : list N :=
  match digits with
  | a :: b :: c :: (_ :: _) as rest => a :: b :: c :: 44%N :: group3 rest
  | _ => digits
  end.

Definition with_commas (n : Z) : pystr := rev (group3 (rev (str_of_int n))).

Definition two_digits (n : Z) : pystr :=
  (if n <? 10 then u "0" else []) ++ str_of_int n.

(** [|m * 2^e| * 100] rounded to the nearest integer, ties to even. *)
Definition hundredths (m : positive) (e : Z) : Z :=
  if 0 <=? e then Zpos m * 2 ^ e * 100
  else
    let den := 2 ^ (- e) in
    let q := (Zpos m * 100) / den in
    let r := (Zpos m * 100) mod den in
    if 2 * r <? den then q
    else if den <? 2 * r then q + 1
    else if Z.even q then q else q + 1.

(** [f"{x:,.2f}"] for a float [x]. *)
Definition format_2f (x : spec_float) : pystr :=
  let sign (s : bool) := if s then u "-" else [] in
  match x with
  | S754_nan => u "nan"
  | S754_infinity s => sign s ++ u "inf"
  | S754_zero s => sign s ++ u "0.00"
  | S754_finite s m e =>
      let n := hundredths m e in
      sign s ++ with_commas (n / 100) ++ u "." ++ two_digits (n mod 100)
  end.

(** ** Stage 1: [load_and_split_pdf] *)

(** What [pdfplumber] does with one page: the rendering and the text
    extraction succeed, or one of them raises. *)
Inductive page_source : Type :=
| PageOk (image_base64 text : pystr)
| PageError (msg : pystr).

(** What [pdfplumber.open] does with the file: it raises, or it gives the
    pages of the document. *)
Inductive pdf_source : Type :=
| OpenError (msg : pystr)
| Opened (pages : list page_source).

Record page : Type := mk_page {
  page_num : Z;
  image_base64 : pystr;
  text : pystr
}.

(** [for page_num, page in enumerate(pdf.pages)], on [pages_data]. *)
Fixpoint split_pages (page_num : Z) (pages : list page_source)
    (pages_data : list page) : list page :=
  match pages with
  | [] => pages_data
  | PageOk img txt :: rest =>
      split_pages (page_num + 1) rest (pages_data ++ [mk_page (page_num + 1) img txt])
  | PageError _ :: rest => split_pages (page_num + 1) rest pages_data
  end.

Definition load_and_split_pdf (pdf : pdf_source) : result (list page) :=
  match pdf with
  | Opened pages => Ok (split_pages 0 pages [])
  | OpenError msg => Raise (Exception (u "Failed to load PDF: " ++ msg))
  end.

(** ** Stage 2: [call_ollama] and [extract_invoices_from_pages] *)

(** How the request for one page ends: [requests.post] raises
    [ConnectionError]; the request, the status check or the decoding of the
    body raises anything else; or [response.json()] returns. *)
Inductive http_outcome : Type :=
| ConnectionError
| RequestError
| Response (body : value).

Definition non_invoice : value := VDict [(VStr (u "type"), VStr (u "non_invoice"))].

Definition backtick : N := 96%N.

(** The body of the [try]: [None] stands for an exception that the last two
    handlers turn into [{"type": "non_invoice"}]. *)
Definition decode_response (rt : py_runtime) (response_json : value) : option value :=
  match response_json with
  | VDict d =>
      match get_or "response" (VStr []) d with
      | VStr full_response =>
          let full_response := strip full_response in
          let full_response :=
            if startswith full_response [backtick; backtick; backtick]
            then slice full_response (find full_response 123%N)
                       (rfind full_response 125%N + 1)
            else full_response in
          json_loads rt full_response
      | _ => None
      end
  | _ => None
  end.

Definition call_ollama (rt : py_runtime) (outcome : http_outcome) : result value :=
  match outcome with
  | ConnectionError =>
      Raise (Exception (u "Could not connect to Ollama. Make sure to run 'ollama serve' in a separate terminal."))
  | RequestError => Ok non_invoice
  | Response response_json =>
      match decode_response rt response_json with
      | Some invoice_data => Ok invoice_data
      | None => Ok non_invoice
      end
  end.

(** [v == "invoice"]. *)
Definition is_str (v : value) (s : string) : bool :=
  match v with
  | VStr t => bool_decide (t = u s)
  | _ => false
  end.

(** The body of [for page in pages_data]; [post page] is how the request
    made for that page ends. *)
Definition extract_page (rt : py_runtime) (post : page -> http_outcome)
    (extracted_invoices : list dict) (pg : page) : result (list dict) :=
  let! invoice_data := call_ollama rt (post pg) in
  match invoice_data with
  | VDict d =>
      if is_str (get "type" d) "invoice"
      then Ok (extracted_invoices ++ [dict_set "source_page" (VInt (page_num pg)) d])
      else Ok extracted_invoices
  | _ => Raise AttributeError
  end.

Definition extract_invoices_from_pages (rt : py_runtime) (post : page -> http_outcome)
    (pages_data : list page) : result (list dict) :=
  for_each (extract_page rt post) pages_data [].

(** ** Stage 4: [format_as_markdown] *)

Module Format.

Definition nl : pystr := [10%N].

(** The [try: f"{float(x):,.2f}" except: ...] of every monetary field. *)
Definition amount_str (rt : py_runtime) (amount : value) : pystr :=
  match py_float rt amount with
  | Some x => format_2f x
  | None => py_str rt amount
  end.

Definition money_str (rt : py_runtime) (amount : value) : pystr :=
  match py_float rt amount with
  | Some x => rupee ++ format_2f x
  | None => rupee ++ py_str rt amount
  end.

(** One row of the line-item table. *)
Definition format_item (rt : py_runtime) (item : value) : result pystr :=
  match item with
  | VDict d =>
      match get_or "description" (VStr []) d with
      | VStr description =>
          let desc := take 50 (replace pipe slash description) in
          let hsn := get_or "hsn_sac" (VStr []) d in
          let qty := get_or "quantity" (VInt 0) d in
          let rate := get_or "rate" (VInt 0) d in
          let unit := get_or "unit" (VStr []) d in
          let amount := get_or "amount" (VInt 0) d in
          Ok (u "| " ++ desc ++ u " | " ++ py_str rt hsn ++ u " | " ++ py_str rt qty
              ++ u " | " ++ py_str rt rate ++ u " | " ++ py_str rt unit
              ++ u " | " ++ amount_str rt amount ++ u " |" ++ nl)
      | _ => Raise AttributeError
      end
  | _ => Raise AttributeError
  end.

(** The table, or nothing when [line_items] is falsy. *)
Definition format_items (rt : py_runtime) (line_items : value) : result pystr :=
  if truthy line_items then
    let! items := iter_value line_items in
    let! rows := for_each (fun out item =>
                             let! row := format_item rt item in Ok (out ++ row))
                          items [] in
    Ok (u "| Description | HSN/SAC | Qty | Rate | Unit | Amount |" ++ nl
        ++ u "|---|---|---|---|---|---|" ++ nl ++ rows ++ nl)
  else Ok [].

(** One line of the tax breakdown; an entry whose value is no dict writes
    nothing. *)
Definition format_tax (rt : py_runtime) (entry : value * value) : result pystr :=
  match entry.2 with
  | VDict tax_info =>
      let rate := get_or "rate" (VStr (u "0%")) tax_info in
      let amount := get_or "amount" (VInt 0) tax_info in
      match entry.1 with
      | VStr tax_type =>
          Ok (u "**" ++ str_upper rt tax_type ++ u " (" ++ py_str rt rate ++ u ")**: "
              ++ money_str rt amount ++ nl)
      | _ => Raise AttributeError
      end
  | _ => Ok []
  end.

Definition format_taxes (rt : py_runtime) (tax_breakdown : value) : result pystr :=
  match tax_breakdown with
  | VDict entries =>
      for_each (fun out entry => let! line := format_tax rt entry in Ok (out ++ line))
               entries []
  | _ => Raise AttributeError
  end.

Definition na : value := VStr (u "N/A").

(** The header line and the vendor and buyer lines. *)
Definition invoice_head (rt : py_runtime) (inv : dict) : pystr :=
  u "## Invoice #" ++ py_str rt (get_or "invoice_num" na inv) ++ u " | "
  ++ py_str rt (get_or "vendor_name" na inv) ++ u " | "
  ++ py_str rt (get_or "invoice_date" na inv) ++ nl ++ nl
  ++ u "**Vendor**: " ++ py_str rt (get_or "vendor_name" na inv)
  ++ u " (GSTIN: " ++ py_str rt (get_or "vendor_gstin" na inv) ++ u ")" ++ nl
  ++ u "**Buyer**: " ++ py_str rt (get_or "buyer_name" na inv)
  ++ u " (GSTIN: " ++ py_str rt (get_or "buyer_gstin" na inv) ++ u ")" ++ nl ++ nl.

(** The block of one invoice. *)
Definition format_invoice (rt : py_runtime) (inv : dict) : result pystr :=
  let! table := format_items rt (get_or "line_items" (VList []) inv) in
  let subtotal := u "**Subtotal**: " ++ money_str rt (get_or "subtotal" (VInt 0) inv) ++ nl in
  let! taxes := format_taxes rt (get_or "tax_breakdown" (VDict []) inv) in
  let total := nl ++ u "**Total**: " ++ money_str rt (get_or "total" (VInt 0) inv) ++ nl ++ nl in
  Ok (invoice_head rt inv ++ table ++ subtotal ++ taxes ++ total ++ u "---" ++ nl ++ nl).

Definition format_as_markdown (rt : py_runtime) (deduped_invoices : list dict)
  : result pystr :=
  for_each (fun markdown_output inv =>
              let! block := format_invoice rt inv in Ok (markdown_output ++ block))
           deduped_invoices [].

End Format.

(** ** The orchestrator: [process_invoice_pdf] *)

Record output : Type := mk_output {
  invoices : list dict;
  markdown : pystr;
  json : pystr
}.

Definition process_invoice_pdf (rt : py_runtime) (post : page -> http_outcome)
    (pdf : pdf_source) : result output :=
  let! pages := load_and_split_pdf pdf in
  let! extracted := extract_invoices_from_pages rt post pages in
  let! merged := Merge.merge_multipage_invoices extracted in
  let! deduped := Dedup.deduplicate_invoices merged in
  let! markdown_output := Format.format_as_markdown rt deduped in
  Ok (mk_output deduped markdown_output (json_dumps rt deduped)).

(** * Notions used to state the properties *)

(** ** Keeping the first of each key

    [first_by key l] keeps an element and drops every later element with its
    key. *)
Section FirstBy.
Context {A K : Type} `{EqDecision K} (key : A -> K).

Fixpoint first_by (l : list A) : list A :=
  match l with
  | [] => []
  | x :: rest => x :: filter (fun y => key y <> key x) (first_by rest)
  end.
End FirstBy.

(** ** Equal numbers

    The numbers [(-1)^s1 * m1 * 2^e1] and [(-1)^s2 * m2 * 2^e2] are equal:
    stated over the integers, with both exponents brought to the smaller. *)
Definition same_number (s1 : bool) (m1 : positive) (e1 : Z)
    (s2 : bool) (m2 : positive) (e2 : Z) : Prop :=
  s1 = s2
  /\ Zpos m1 * 2 ^ (e1 - Z.min e1 e2) = Zpos m2 * 2 ^ (e2 - Z.min e1 e2).

(** ** What a merged record holds *)

(** A page supplies field [f] when [page.get(f)] is truthy. *)
Definition supplies (f : string) (p : dict) : Prop := truthy (get f p) = true.

Global Instance supplies_dec (f : string) (p : dict) : Decision (supplies f p).
Proof. unfold supplies. apply _. Defined.

(** One step of "a page that supplies the field overwrites it". *)
Definition overwrite (f : string) (acc : option value) (p : dict) : option value :=
  if truthy (get f p) then dict_get f p else acc.

(** The field as resolved over the pages of a group: the value of the last
    page that supplies one, else whatever the first page has. *)
Definition resolved (f : string) (pages : list dict) : option value :=
  match last (filter (supplies f) pages) with
  | Some p => dict_get f p
  | None => head pages ≫= dict_get f
  end.

(** The line items a page contributes. *)
Definition page_items (p : dict) : result (list value) :=
  iter_value (get_or "line_items" (VList []) p).

(** The fields that the merge leaves as the first page has them. *)
Definition untouched (k : string) : Prop :=
  u k <> u "line_items" /\ u k <> u "tax_breakdown"
  /\ u k <> u "subtotal" /\ u k <> u "total".

(** The three grouping fields of Scenario A. *)
Definition scenario_key (p : dict) : Prop :=
  get "invoice_num" p = VStr (u "INV-1")
  /\ get "vendor_name" p = VStr (u "Acme")
  /\ get "invoice_date" p = VStr (u "2024-01-01").

(** How a page is loaded, given its 1-based position. *)
Definition page_of (numbered : Z * page_source) : option page :=
  match numbered.2 with
  | PageOk img txt => Some (mk_page numbered.1 img txt)
  | PageError _ => None
  end.

(** A page as the prompt asks for it, as far as the merge depends on it: the
    grouping fields are hashable, [line_items] is absent or yields dicts
    whose structural key is hashable, and [tax_breakdown] is falsy or a
    dict. *)
Definition page_shape (p : dict) : bool :=
  is_ok (Merge.page_key p)
  && match page_items p with
     | Ok items => forallb (fun it => is_ok (Merge.item_key it)) items
     | Raise _ => false
     end
  && (negb (truthy (get "tax_breakdown" p))
      || match get "tax_breakdown" p with
         | VDict d => forallb (fun kv => hashable kv.1) d
         | _ => false
         end).

(** The two entries that the loop over the pages relies on. *)
Definition merging (m : dict) : Prop :=
  (exists l, dict_get "line_items" m = Some (VList l))
  /\ (exists t, dict_get "tax_breakdown" m = Some (VDict t)).

(** ** Sample data *)

(** ASCII letters to upper case: [str.upper] on ASCII text. *)
Definition ascii_upper (s : pystr) : pystr :=
  List.map (fun c => if ((97 <=? c) && (c <=? 122))%N then (c - 32)%N else c) s.

(** A runtime for the examples.  It decodes the JSON text [[]] and no other
    text, parses no float literal, and writes [?] for every [repr]. *)
Definition sample_runtime : py_runtime := {|
  json_loads := fun s => if bool_decide (s = u "[]") then Some (VList []) else None;
  float_of_str := fun _ => None;
  py_repr := fun _ => u "?";
  str_upper := ascii_upper;
  json_dumps := fun _ => []
|}.

Definition entry (k : string) (v : value) : value * value := (VStr (u k), v).

Definition line_item (description hsn_sac : string) (quantity rate : Z)
    (unit : string) (amount : value) : value :=
  VDict [entry "description" (VStr (u description));
         entry "hsn_sac" (VStr (u hsn_sac));
         entry "quantity" (VInt quantity);
         entry "rate" (VInt rate);
         entry "unit" (VStr (u unit));
         entry "amount" amount].

(** Shape predicates of the formatter: what it needs of an invoice in order
    not to raise.  None of them looks at a monetary field. *)
Module Shape.






End Shape.

Definition pipe_item : value :=
  line_item "Bolt|M8" "73|18" 2 5 "kg|m" (VInt 10).

(** The answer of the model whose text is the JSON array [[]]. *)
Definition array_answer : value := VDict [entry "response" (VStr (u "[]"))].

(** Scenario A: two pages of invoice INV-1. *)
Definition scenario_page (items : list value) (total : Z) : dict :=
  [entry "type" (VStr (u "invoice"));
   entry "invoice_num" (VStr (u "INV-1"));
   entry "vendor_name" (VStr (u "Acme"));
   entry "invoice_date" (VStr (u "2024-01-01"));
   entry "line_items" (VList items);
   entry "total" (VInt total)].

Definition bolt : value := line_item "Bolt" "7318" 2 5 "kg" (VInt 10).
Definition nut : value := line_item "Nut" "7318" 10 1 "pcs" (VInt 10).
Definition washer : value := line_item "Washer" "7318" 100 10 "pcs" (VInt 1000).

Definition scenario_pages : list dict :=
  [scenario_page [bolt; nut] 0; scenario_page [washer] 1180].

(** Two pages that differ in [invoice_num] only: one has no such field, the
    other has the empty string. *)
Definition page_without_number : dict :=
  [entry "type" (VStr (u "invoice"));
   entry "vendor_name" (VStr (u "Acme"));
   entry "invoice_date" (VStr (u "2024-01-01"));
   entry "line_items" (VList [bolt])].

Definition page_with_empty_number : dict :=
  [entry "type" (VStr (u "invoice"));
   entry "invoice_num" (VStr []);
   entry "vendor_name" (VStr (u "Acme"));
   entry "invoice_date" (VStr (u "2024-01-01"));
   entry "line_items" (VList [nut])].



(** What a stage returns on a sample, for the examples. *)
Definition returned {A : Type} (r : result (list A)) : list A :=
  match r with
  | Ok out => out
  | Raise _ => []
  end.


Definition mixed_pages : list dict :=
  scenario_pages ++ [page_without_number; page_with_empty_number].

Definition mixed_merged : list dict :=
  Eval vm_compute in returned (Merge.merge_multipage_invoices mixed_pages).







(** ** Notions for the further properties *)



(** The opening brace, the closing brace and the code fence of a model answer. *)
Definition lbrace : N := 123%N.
Definition rbrace : N := 125%N.
Definition fence : pystr := [backtick; backtick; backtick].

(** The text that [call_ollama] decodes: the [response] field, stripped. *)
Definition answer_text (response_json : dict) : option pystr :=
  match get_or "response" (VStr []) response_json with
  | VStr full_response => Some (strip full_response)
  | _ => None
  end.

(** The key/value pairs that [update] draws from a [tax_breakdown]: the
    entries of a dict, else the elements that yield a key and a value. *)
Definition update_pairs (other : value) : list (value * value) :=
  match other with
  | VDict d => d
  | _ => omap (fun x => match pair_of x with Ok kv => Some kv | Raise _ => None end)
              (returned (iter_value other))
  end.

(** The pairs that a page adds to the merged [tax_breakdown]: none when its
    own is falsy. *)
Definition tax_entries (p : dict) : list (value * value) :=
  if truthy (get "tax_breakdown" p) then update_pairs (get "tax_breakdown" p) else [].

(** The entry of a pair list that a dict built from it holds for a key: the
    last one. *)
Definition last_entry (a : atom) (entries : list (value * value)) : option value :=
  dict_lookup a (rev entries).

(** The keys of a dict, as the classes under which it finds them. *)
Definition key_atoms (d : dict) : list (result atom) := hash_value <$> d.*1.

(** A dict as Python builds one: every key hashable, no key twice. *)
Definition distinct_keys (d : dict) : Prop :=
  Forall (fun k => is_ok k = true) (key_atoms d) /\ NoDup (key_atoms d).

(** What [merge_multipage_invoices] leaves in the two fields it rebuilds:
    a list of line items with distinct structural keys and a dict. *)
Definition merged_shape (m : dict) : Prop :=
  exists items t,
    dict_get "line_items" m = Some (VList items)
    /\ Forall (fun it => is_ok (Merge.item_key it) = true) items
    /\ NoDup (Merge.item_key <$> items)
    /\ dict_get "tax_breakdown" m = Some (VDict t)
    /\ distinct_keys t.

(** The exceptions that the merge can raise. *)
Definition merge_error (e : exn) : Prop :=
  e = TypeError \/ e = AttributeError \/ e = ValueError.

(** Three pages that the merge cannot take: a grouping field that is a list,
    a line item that is a number, a [tax_breakdown] list whose element has
    one member. *)
Definition page_with_list_number : dict :=
  [entry "type" (VStr (u "invoice")); entry "invoice_num" (VList [])].

Definition page_with_number_item : dict :=
  [entry "type" (VStr (u "invoice")); entry "line_items" (VList [VInt 1])].

Definition page_with_unpaired_tax : dict :=
  [entry "type" (VStr (u "invoice")); entry "tax_breakdown" (VList [VList [VInt 1]])].


(** ** Answers as the prompt asks for them *)





(** A runtime whose model answers every page with the second page of
    Scenario A. *)
Definition scenario_runtime : py_runtime := {|
  json_loads := fun _ => Some (VDict (scenario_page [washer] 1180));
  float_of_str := fun _ => None;
  py_repr := fun _ => u "?";
  str_upper := ascii_upper;
  json_dumps := fun _ => []
|}.

(** The pages of the invoice of page [p] among [invs], in their order. *)
Definition pages_of (p : dict) (invs : list dict) : list dict :=
  filter (fun q => Merge.page_key q = Merge.page_key p) invs.

(** The pages of Scenario A with a page of another invoice between them,
    and after them. *)
Definition interleaved_pages : list dict :=
  [scenario_page [bolt; nut] 0; page_without_number; scenario_page [washer] 1180].

Definition contiguous_pages : list dict :=
  [scenario_page [bolt; nut] 0; scenario_page [washer] 1180; page_without_number].

(** ** More sample data *)

(** A document of three pages, the second of which does not render. *)
Definition sample_pdf : pdf_source :=
  Opened [PageOk (u "aW1n") (u "one"); PageError (u "bad page"); PageOk (u "aW1n") (u "three")].

Definition sample_pages : list page :=
  Eval vm_compute in returned (load_and_split_pdf sample_pdf).

(** A service that answers every page with a JSON object, one that cannot
    be reached, and one whose answer is fenced. *)
Definition object_answer : dict := [entry "response" (VStr (u "{}"))].

Definition answers_object (pg : page) : http_outcome := Response (VDict object_answer).


Definition fenced_text : pystr := u "```json {} ```".

Definition fenced_answer : dict := [entry "response" (VStr (u "  ```json {} ```  "))].


Definition sample_output : output :=
  Eval vm_compute in
    match process_invoice_pdf scenario_runtime answers_object sample_pdf with
    | Ok out => out
    | Raise _ => mk_output [] [] []
    end.

(** Two pages of one invoice with tax breakdowns: the second corrects
    [cgst] and adds [sgst]. *)
Definition tax_of (amount : Z) : value :=
  VDict [entry "rate" (VStr (u "9%")); entry "amount" (VInt amount)].

Definition taxed_page (items : list value) (taxes : list (value * value)) : dict :=
  scenario_page items 0 ++ [entry "tax_breakdown" (VDict taxes)].

Definition taxed_pages : list dict :=
  [taxed_page [bolt] [entry "cgst" (tax_of 9)];
   taxed_page [nut] [entry "cgst" (tax_of 18); entry "sgst" (tax_of 18)]].

Definition taxed_merged : list dict :=
  Eval vm_compute in returned (Merge.merge_multipage_invoices taxed_pages).

(** * Properties *)

(** ** The loops, in general *)

Lemma for_each_app {A S : Type} (body : S -> A -> result S) (xs ys : list A) (st : S) :
  for_each body (xs ++ ys) st = let! st' := for_each body xs st in for_each body ys st'.
Proof.
  revert st. induction xs as [|x xs IH]; intros st; simpl; [done|].
  destruct (body st x); simpl; auto.
Qed.

Lemma for_each_snoc {A S : Type} (body : S -> A -> result S) (xs : list A) (x : A) (st : S) :
  for_each body (xs ++ [x]) st = let! st' := for_each body xs st in body st' x.
Proof.
  rewrite for_each_app. destruct (for_each body xs st); simpl; [|done].
  destruct (body _ x); done.
Qed.

Section FirstByFacts.
Context {A K : Type} `{EqDecision K} (key : A -> K).

Lemma first_by_sublist l : first_by key l `sublist_of` l.
Proof.
  induction l as [|x l IH]; simpl; [done|].
  apply sublist_skip. etrans; [apply sublist_filter|done].
Qed.

Lemma first_by_keys l x : key x ∈ key <$> first_by key l <-> key x ∈ key <$> l.
Proof.
  induction l as [|y l IH]; simpl; [done|].
  rewrite !elem_of_cons, <- IH. split; (intros [->|H]; [by left|]).
  - right. apply list_elem_of_fmap in H as (z & Hz & Hin).
    apply list_elem_of_filter in Hin as [_ Hin].
    apply list_elem_of_fmap. eauto.
  - destruct (decide (key x = key y)) as [|Hne]; [by left|right].
    apply list_elem_of_fmap in H as (z & Hz & Hin).
    apply list_elem_of_fmap. exists z. split; [done|].
    apply list_elem_of_filter. split; [congruence|done].
Qed.

Lemma first_by_NoDup l : NoDup (key <$> first_by key l).
Proof.
  induction l as [|x l IH]; simpl; [constructor|].
  constructor.
  - intros H. apply list_elem_of_fmap in H as (z & Hz & Hin).
    apply list_elem_of_filter in Hin as [Hne _]. congruence.
  - eapply sublist_NoDup; [exact IH|apply fmap_sublist, sublist_filter].
Qed.

Lemma first_by_snoc l x :
  first_by key (l ++ [x]) =
  if decide (key x ∈ key <$> l) then first_by key l else first_by key l ++ [x].
Proof.
  induction l as [|y l IH]; simpl.
  - by rewrite filter_nil.
  - rewrite IH. destruct (decide (key x ∈ key <$> l)) as [Hin|Hnin].
    + rewrite decide_True; [done|by right].
    + rewrite filter_app, filter_cons, filter_nil.
      destruct (decide (key x = key y)) as [Heq|Hne].
      * rewrite (decide_True (P:=key x ∈ _)) by (apply elem_of_cons; by left).
        rewrite decide_False by (intros H; by apply H).
        by rewrite app_nil_r.
      * rewrite (decide_False (P:=key x ∈ _))
          by (rewrite elem_of_cons; intros [?|?]; done).
        by rewrite decide_True.
Qed.

Lemma filter_other_keys (x : A) (l : list A) :
  key x ∉ key <$> l -> filter (fun y => key y <> key x) l = l.
Proof.
  induction l as [|y l IH]; simpl; intros Hnin; [done|].
  rewrite not_elem_of_cons in Hnin. destruct Hnin as [Hne Hnin].
  rewrite filter_cons_True by congruence. by rewrite IH.
Qed.

(** Where no key repeats there is nothing to drop. *)
Lemma first_by_NoDup_id (l : list A) : NoDup (key <$> l) -> first_by key l = l.
Proof.
  induction l as [|x l IH]; simpl; intros Hnd; [done|].
  apply NoDup_cons in Hnd as [Hnin Hnd].
  by rewrite IH, filter_other_keys.
Qed.

Lemma first_by_idemp (l : list A) : first_by key (first_by key l) = first_by key l.
Proof. apply first_by_NoDup_id, first_by_NoDup. Qed.
End FirstByFacts.

Module DedupFacts.
Import Dedup.

(** What the loop has built after a prefix [xs] of the input. *)
Lemma run_spec (xs : list dict) (st : state) :
  run xs = Ok st ->
  (forall k, k ∈ seen_keys st <-> Ok k ∈ dedup_key <$> xs)
  /\ deduped_invoices st = first_by dedup_key xs
  /\ (length (deduped_invoices st) + duplicates_count st = length xs)%nat.
Proof.
  unfold run. revert st. induction xs as [|x xs IH] using rev_ind; intros st Hrun.
  - injection Hrun as <-. simpl. split_and!; [|done|done].
    intros k. split; intros Hk; by apply elem_of_nil in Hk.
  - rewrite for_each_snoc in Hrun.
    destruct (for_each step xs init) as [s|] eqn:Hs; simpl in Hrun; [|done].
    destruct (IH s eq_refl) as (Hseen & Hout & Hcnt).
    unfold step in Hrun.
    destruct (dedup_key x) as [k|] eqn:Hk; simpl in Hrun; [|done].
    rewrite first_by_snoc, fmap_app, Hk, length_app. simpl.
    case_bool_decide as Hin; injection Hrun as <-; simpl.
    + rewrite decide_True by (by apply Hseen). split_and!; [|done|lia].
      intros k'. rewrite Hseen, elem_of_app, list_elem_of_singleton.
      split; [by left|]. intros [?|Heq]; [done|].
      rewrite Hk in Heq. injection Heq as ->. by apply Hseen.
    + rewrite decide_False by (by rewrite <- Hseen).
      rewrite length_app. simpl. split_and!; [|by rewrite Hout|lia].
      intros k'. rewrite elem_of_cons, Hseen, elem_of_app, list_elem_of_singleton.
      rewrite Hk. split; (intros [?|?]; [right|left]; congruence).
Qed.

(** The loop raises only when some tuple has no hash. *)
Lemma run_returns (xs : list dict) :
  Forall (fun inv => is_ok (dedup_key inv) = true) xs <-> is_ok (run xs) = true.
Proof.
  unfold run. induction xs as [|x xs IH] using rev_ind; [done|].
  rewrite Forall_app, Forall_singleton, for_each_snoc, IH.
  destruct (for_each step xs init) as [s|]; simpl; [|intuition congruence].
  unfold step. destruct (dedup_key x) as [k|]; simpl; [|intuition congruence].
  case_bool_decide; intuition congruence.
Qed.

End DedupFacts.

Module DedupTheorems.
Import Dedup DedupFacts.

Lemma deduplicate_run (X out : list dict) :
  deduplicate_invoices X = Ok out <->
  exists st, run X = Ok st /\ deduped_invoices st = out.
Proof.
  unfold deduplicate_invoices. destruct (run X) as [st|e]; simpl.
  - split; [intros [= <-]; eauto|intros (st' & [= <-] & <-); done].
  - split; [done|intros (st' & ? & _); done].
Qed.


(** C5. Deduplicating twice is deduplicating once: for every sequence [X],
    running [deduplicate_invoices] on the outcome of [deduplicate_invoices X]
    gives that same outcome, whether it is a list or the [TypeError] of an
    unhashable key. *)
Theorem deduplicate_invoices_idempotent (X : list dict) :
  (let! Y := deduplicate_invoices X in deduplicate_invoices Y)
  = deduplicate_invoices X.
Proof.
  destruct (deduplicate_invoices X) as [out|e] eqn:HX; simpl; [|done].
  apply deduplicate_run in HX as (st & Hrun & <-).
  destruct (run_spec X st Hrun) as (_ & Hout & _).
  assert (Hok : is_ok (run (deduped_invoices st)) = true).
  { apply run_returns. rewrite Hout.
    assert (HX : Forall (fun inv => is_ok (dedup_key inv) = true) X)
      by (apply run_returns; by rewrite Hrun).
    rewrite Forall_forall in HX |- *. intros inv Hin.
    apply HX. eapply elem_of_sublist; [done|apply first_by_sublist]. }
  destruct (run (deduped_invoices st)) as [st'|] eqn:Hrun'; [|done].
  apply deduplicate_run. exists st'. split; [done|].
  destruct (run_spec _ st' Hrun') as (_ & Hout' & _).
  by rewrite Hout', Hout, first_by_idemp.
Qed.


End DedupTheorems.

(** ** Keys

    The atom of a number is its odd part and its exponent, so that equal
    numbers, and only they, are one key. *)

Lemma strip2_spec (m : positive) (e : Z) :
  exists k, 0 <= k /\ (strip2 m e).2 = e + k
    /\ Zpos m = Zpos (strip2 m e).1 * 2 ^ k
    /\ Z.odd (Zpos (strip2 m e).1) = true.
Proof.
  revert e. induction m as [m IH|m IH|]; intros e; simpl.
  - exists 0. split_and!; [lia|lia|lia|done].
  - destruct (IH (e + 1)) as (k & Hk & He & Hm & Hodd).
    exists (k + 1). split_and!; [lia|lia| |done].
    rewrite Z.pow_add_r, Z.pow_1_r by lia. lia.
  - exists 0. split_and!; [lia|lia|lia|done].
Qed.

Lemma odd_part_unique (a b i j : Z) :
  Z.odd a = true -> Z.odd b = true -> 0 <= i -> 0 <= j ->
  a * 2 ^ i = b * 2 ^ j -> a = b /\ i = j.
Proof.
  assert (Hle : forall a b i j, Z.odd a = true -> 0 <= i -> i <= j ->
                                a * 2 ^ i = b * 2 ^ j -> a = b /\ i = j).
  { clear. intros a b i j Ha Hi Hij Heq.
    assert (Hq : a = b * 2 ^ (j - i)).
    { replace j with (i + (j - i)) in Heq at 1 by lia.
      rewrite Z.pow_add_r in Heq by lia.
      assert (0 < 2 ^ i) by (apply Z.pow_pos_nonneg; lia). nia. }
    destruct (decide (j - i = 0)) as [H0|Hpos].
    - rewrite H0, Z.pow_0_r in Hq. lia.
    - exfalso. replace (j - i) with (1 + (j - i - 1)) in Hq by lia.
      rewrite Z.pow_add_r, Z.pow_1_r in Hq by lia.
      rewrite Hq, !Z.odd_mul in Ha. simpl in Ha.
      by rewrite andb_false_r in Ha. }
  intros Ha Hb Hi Hj Heq. destruct (Z.le_ge_cases i j) as [Hij|Hij].
  - by apply Hle.
  - symmetry in Heq. destruct (Hle b a j i Hb Hj Hij Heq) as [-> ->]. done.
Qed.

(** Two numbers have the same atom exactly when they are equal. *)
Lemma num_atom_same_number (s1 : bool) (m1 : positive) (e1 : Z)
    (s2 : bool) (m2 : positive) (e2 : Z) :
  num_atom s1 m1 e1 = num_atom s2 m2 e2 <-> same_number s1 m1 e1 s2 m2 e2.
Proof.
  unfold num_atom, same_number.
  destruct (strip2_spec m1 e1) as (k1 & Hk1 & He1 & Hm1 & Ho1).
  destruct (strip2_spec m2 e2) as (k2 & Hk2 & He2 & Hm2 & Ho2).
  destruct (strip2 m1 e1) as [a1 f1], (strip2 m2 e2) as [a2 f2]. simpl in *.
  rewrite Hm1, Hm2, <- !Z.mul_assoc, <- !Z.pow_add_r by lia.
  split.
  - intros Heq. assert (s1 = s2 /\ a1 = a2 /\ f1 = f2) as (-> & -> & ->).
    { destruct s1, s2; injection Heq as Ha Hf; try done; by subst. }
    split; [done|]. f_equal. f_equal. lia.
  - intros [-> Heq].
    apply odd_part_unique in Heq as [Ha Hk]; [|done|done|lia|lia].
    assert (a1 = a2) as -> by congruence.
    assert (f1 = f2) as -> by lia. done.
Qed.

Lemma keys_by_value :
  hash_value (VBool true) = hash_value (VInt 1)
  /\ hash_value (VInt 2) = hash_value (VFloat (S754_finite false 1 1))
  /\ hash_value (VFloat (S754_zero true)) = hash_value (VInt 0)
  /\ hash_value VNone <> hash_value (VStr [])
  /\ hash_value (VStr (u "1")) <> hash_value (VInt 1).
Proof. split_and!; done. Qed.

(** ** Reading back what was stored *)

Lemma dict_lookup_store_eq (a : atom) (k v : value) (d : dict) :
  hash_value k = Ok a -> dict_lookup a (dict_store a k v d) = Some v.
Proof.
  intros Hk. induction d as [|[k' v'] d IH]; simpl.
  - unfold key_is. rewrite Hk. by rewrite bool_decide_eq_true_2.
  - destruct (key_is a k') eqn:Hk'; simpl; rewrite Hk'; done.
Qed.

Lemma dict_lookup_store_ne (a b : atom) (k v : value) (d : dict) :
  hash_value k = Ok a -> a <> b ->
  dict_lookup b (dict_store a k v d) = dict_lookup b d.
Proof.
  intros Hk Hne. induction d as [|[k' v'] d IH]; simpl.
  - unfold key_is. rewrite Hk. by rewrite bool_decide_eq_false_2.
  - destruct (key_is a k') eqn:Hk'; simpl.
    + assert (key_is b k' = false) as ->; [|done].
      unfold key_is in *. destruct (hash_value k'); [|done].
      apply bool_decide_eq_true in Hk'. apply bool_decide_eq_false. congruence.
    + by rewrite IH.
Qed.

Lemma dict_get_set_eq (k : string) (v : value) (d : dict) :
  dict_get k (dict_set k v d) = Some v.
Proof. by apply dict_lookup_store_eq. Qed.

Lemma dict_get_set_ne (k k' : string) (v : value) (d : dict) :
  u k <> u k' -> dict_get k' (dict_set k v d) = dict_get k' d.
Proof. intros Hne. apply dict_lookup_store_ne; [done|congruence]. Qed.

Lemma getitem_Ok (k : string) (d : dict) (v : value) :
  getitem k d = Ok v <-> dict_get k d = Some v.
Proof. unfold getitem. destruct (dict_get k d); split; congruence. Qed.

(** A truthy [d.get(k)] is a stored value. *)
Lemma truthy_get (k : string) (d : dict) :
  truthy (get k d) = true -> dict_get k d = Some (get k d).
Proof. unfold get. by destruct (dict_get k d). Qed.

Ltac ne_keys := try (intros Hbad; vm_compute in Hbad; discriminate Hbad).

Module MergeFacts.
Import Merge.

Lemma merge_page_spec (m p m' : dict) (l : list value) :
  merge_page m p = Ok m' ->
  dict_get "line_items" m = Some (VList l) ->
  exists xs, page_items p = Ok xs
    /\ dict_get "line_items" m' = Some (VList (l ++ xs))
    /\ dict_get "subtotal" m' = overwrite "subtotal" (dict_get "subtotal" m) p
    /\ dict_get "total" m' = overwrite "total" (dict_get "total" m) p
    /\ forall k, untouched k -> dict_get k m' = dict_get k m.
Proof.
  unfold merge_page, page_items, overwrite. intros Hrun Hl.
  apply getitem_Ok in Hl as Hl'. rewrite Hl' in Hrun. simpl in Hrun.
  destruct (iter_value _) as [xs|]; simpl in Hrun; [|done].
  exists xs. split; [done|].
  set (m1 := dict_set "line_items" (VList (l ++ xs)) m) in *.
  assert (H1 : dict_get "line_items" m1 = Some (VList (l ++ xs))
               /\ forall k, u k <> u "line_items" -> dict_get k m1 = dict_get k m).
  { split; [apply dict_get_set_eq|]. intros k Hk. by apply dict_get_set_ne. }
  clearbody m1. destruct H1 as [H1 H1'].
  match type of Hrun with (let! x := ?r in _) = _ =>
    destruct r as [m2|] eqn:H2; simpl in Hrun; [|done] end.
  assert (H2' : dict_get "line_items" m2 = Some (VList (l ++ xs))
               /\ forall k, u k <> u "line_items" -> u k <> u "tax_breakdown" ->
                            dict_get k m2 = dict_get k m).
  { destruct (truthy (get "tax_breakdown" p)).
    - destruct (getitem "tax_breakdown" m1); simpl in H2; [|done].
      destruct (getitem "tax_breakdown" p); simpl in H2; [|done].
      destruct (dict_update _ _); simpl in H2; [|done].
      injection H2 as <-. split.
      + rewrite dict_get_set_ne by ne_keys. done.
      + intros k Hk1 Hk2. rewrite dict_get_set_ne by done. by apply H1'.
    - injection H2 as <-. split; [done|]. intros k Hk _. by apply H1'. }
  clear H2 H1 H1'. destruct H2' as [H2 H2'].
  match type of Hrun with (let! x := ?r in _) = _ =>
    destruct r as [m3|] eqn:H3; simpl in Hrun; [|done] end.
  assert (H3' : dict_get "line_items" m3 = Some (VList (l ++ xs))
     /\ dict_get "subtotal" m3 =
        (if truthy (get "subtotal" p) then dict_get "subtotal" p
         else dict_get "subtotal" m)
     /\ forall k, u k <> u "line_items" -> u k <> u "tax_breakdown" ->
                  u k <> u "subtotal" -> dict_get k m3 = dict_get k m).
  { destruct (truthy (get "subtotal" p)) eqn:Ht.
    - apply truthy_get in Ht. rewrite Ht.
      rewrite (proj2 (getitem_Ok _ _ _) Ht) in H3. simpl in H3.
      injection H3 as <-. split_and!.
      + rewrite dict_get_set_ne by ne_keys. done.
      + apply dict_get_set_eq.
      + intros k Hk1 Hk2 Hk3. rewrite dict_get_set_ne by done. by apply H2'.
    - injection H3 as <-. split_and!; [done|by apply H2'; ne_keys|].
      intros k Hk1 Hk2 _. by apply H2'. }
  clear H3 H2 H2'. destruct H3' as (H3 & Hsub & H3').
  destruct (truthy (get "total" p)) eqn:Ht.
  - apply truthy_get in Ht. rewrite Ht.
    rewrite (proj2 (getitem_Ok _ _ _) Ht) in Hrun. simpl in Hrun.
    injection Hrun as <-. split_and!.
    + rewrite dict_get_set_ne by ne_keys. done.
    + rewrite dict_get_set_ne by ne_keys. done.
    + apply dict_get_set_eq.
    + intros k (Hk1 & Hk2 & Hk3 & Hk4). rewrite dict_get_set_ne by done. by apply H3'.
  - injection Hrun as <-. split_and!; [done|done|by apply H3'; ne_keys|].
    intros k (Hk1 & Hk2 & Hk3 & Hk4). by apply H3'.
Qed.

Lemma overwrite_resolved (f : string) (init : option value) (pages : list dict) :
  foldl (overwrite f) init pages =
  match last (filter (supplies f) pages) with
  | Some p => dict_get f p
  | None => init
  end.
Proof.
  induction pages as [|p pages IH] using rev_ind; [done|].
  rewrite foldl_app, filter_app, IH. simpl. unfold overwrite at 1.
  rewrite filter_cons, filter_nil. unfold supplies at 2.
  destruct (truthy (get f p)) eqn:Ht.
  - rewrite decide_True by done. by rewrite last_snoc.
  - rewrite decide_False by congruence. by rewrite app_nil_r.
Qed.

(** The loop over the pages of a group. *)
Lemma merge_pages_spec (pages : list dict) (m0 m : dict) (l0 : list value) :
  for_each merge_page pages m0 = Ok m ->
  dict_get "line_items" m0 = Some (VList l0) ->
  exists xss, Forall2 (fun p xs => page_items p = Ok xs) pages xss
    /\ dict_get "line_items" m = Some (VList (l0 ++ concat xss))
    /\ dict_get "subtotal" m = foldl (overwrite "subtotal") (dict_get "subtotal" m0) pages
    /\ dict_get "total" m = foldl (overwrite "total") (dict_get "total" m0) pages
    /\ forall k, untouched k -> dict_get k m = dict_get k m0.
Proof.
  revert m0 l0. induction pages as [|p pages IH]; intros m0 l0 Hrun Hl; simpl in *.
  - injection Hrun as <-. exists []. simpl. rewrite app_nil_r. by split_and!.
  - destruct (merge_page m0 p) as [m1|] eqn:H1; simpl in Hrun; [|done].
    destruct (merge_page_spec _ _ _ _ H1 Hl) as (xs & Hxs & Hl1 & Hs1 & Ht1 & Hk1).
    destruct (IH _ _ Hrun Hl1) as (xss & Hxss & Hl2 & Hs2 & Ht2 & Hk2).
    exists (xs :: xss). simpl. rewrite app_assoc, <- Hs1, <- Ht1.
    split_and!; [by constructor|done..|].
    intros k Hk. by rewrite Hk2, Hk1.
Qed.

(** The loop over the collected line items. *)
Lemma unique_items_spec (items : list value) (st : list item_key_t * list value) :
  for_each unique_step items ([], []) = Ok st ->
  (forall k, k ∈ st.1 <-> Ok k ∈ item_key <$> items)
  /\ st.2 = first_by item_key items.
Proof.
  revert st. induction items as [|x xs IH] using rev_ind; intros st Hrun.
  - injection Hrun as <-. simpl. split; [|done].
    intros k. split; intros Hk; by apply elem_of_nil in Hk.
  - rewrite for_each_snoc in Hrun.
    destruct (for_each unique_step xs ([], [])) as [s|] eqn:Hs; simpl in Hrun; [|done].
    destruct (IH s eq_refl) as (Hseen & Hout).
    unfold unique_step in Hrun.
    destruct (item_key x) as [k|] eqn:Hk; simpl in Hrun; [|done].
    rewrite first_by_snoc, fmap_app, Hk. simpl.
    case_bool_decide as Hin; injection Hrun as <-; simpl.
    + rewrite decide_True by (by apply Hseen). split; [|done].
      intros k'. rewrite Hseen, elem_of_app, list_elem_of_singleton.
      split; [by left|]. intros [?|Heq]; [done|].
      rewrite Hk in Heq. injection Heq as ->. by apply Hseen.
    + rewrite decide_False by (by rewrite <- Hseen). split; [|by rewrite Hout].
      intros k'. rewrite elem_of_cons, Hseen, elem_of_app, list_elem_of_singleton.
      rewrite Hk. split; (intros [?|?]; [right|left]; congruence).
Qed.

(** One group: where each field of the merged record comes from. *)
Lemma merge_group_spec (pages : list dict) (m : dict) :
  merge_group pages = Ok m ->
  exists first xss,
    head pages = Some first
    /\ Forall2 (fun p xs => page_items p = Ok xs) pages xss
    /\ dict_get "line_items" m = Some (VList (first_by item_key (concat xss)))
    /\ dict_get "subtotal" m = resolved "subtotal" pages
    /\ dict_get "total" m = resolved "total" pages
    /\ forall k, untouched k -> dict_get k m = dict_get k first.
Proof.
  unfold merge_group. destruct pages as [|first rest]; [done|]. intros Hrun.
  set (m0 := dict_set "tax_breakdown" (VDict [])
               (dict_set "line_items" (VList []) first)) in *.
  assert (H0 : dict_get "line_items" m0 = Some (VList [])).
  { unfold m0. rewrite dict_get_set_ne by ne_keys. apply dict_get_set_eq. }
  assert (H0' : forall k, u k <> u "line_items" -> u k <> u "tax_breakdown" ->
                          dict_get k m0 = dict_get k first).
  { intros k Hk1 Hk2. unfold m0. by rewrite !dict_get_set_ne. }
  clearbody m0.
  destruct (for_each merge_page (first :: rest) m0) as [m1|] eqn:H1;
    simpl in Hrun; [|done].
  destruct (merge_pages_spec _ _ _ _ H1 H0) as (xss & Hxss & Hl & Hs & Ht & Hk).
  rewrite (proj2 (getitem_Ok _ _ _) Hl) in Hrun. simpl in Hrun.
  destruct (for_each unique_step _ _) as [st|] eqn:Hu; simpl in Hrun; [|done].
  injection Hrun as <-.
  apply unique_items_spec in Hu as [_ Hu].
  exists first, xss. split_and!; [done|done|..].
  - by rewrite dict_get_set_eq, Hu.
  - rewrite dict_get_set_ne, Hs, overwrite_resolved by ne_keys.
    unfold resolved. by rewrite H0' by ne_keys.
  - rewrite dict_get_set_ne, Ht, overwrite_resolved by ne_keys.
    unfold resolved. by rewrite H0' by ne_keys.
  - intros k Hk'. pose proof Hk' as (Hk1 & Hk2 & _).
    rewrite dict_get_set_ne by done. rewrite Hk by done. by apply H0'.
Qed.

Lemma Forall2_impl_elem {A B : Type} (R R' : A -> B -> Prop) (l : list A) (k : list B) :
  Forall2 R l k ->
  (forall x y, x ∈ l -> y ∈ k -> R x y -> R' x y) ->
  Forall2 R' l k.
Proof.
  induction 1 as [|x y l k HR _ IH]; intros Himp; constructor.
  - apply Himp; [left|left|done].
  - apply IH. intros x' y' Hx Hy. apply Himp; by right.
Qed.

Lemma filter_none {A : Type} (P : A -> Prop) `{!forall x, Decision (P x)} (l : list A) :
  (forall x, x ∈ l -> ~ P x) -> filter P l = [].
Proof.
  induction l as [|x l IH]; intros Hno; [done|].
  rewrite filter_cons_False by (apply Hno; left). apply IH.
  intros y Hy. apply Hno. by right.
Qed.

(** Appending a page to the groups built so far: [ps] are the pages that
    opened the groups, [F p] what the group opened by [p] holds. *)
Lemma group_append_spec (grouped : list (key * list dict)) (ps : list dict)
    (k : key) (x : dict) (F : dict -> list dict) :
  Forall2 (fun g p => page_key p = Ok g.1 /\ g.2 = F p) grouped ps ->
  NoDup (page_key <$> ps) ->
  if decide (Ok k ∈ page_key <$> ps) then
    Forall2 (fun g p => page_key p = Ok g.1 /\
               g.2 = F p ++ (if decide (page_key p = Ok k) then [x] else []))
            (group_append k x grouped) ps
  else group_append k x grouped = grouped ++ [(k, [x])].
Proof.
  induction 1 as [|[k' pages] p grouped ps [Hk' Hp] Hrest IH]; intros Hnd; simpl.
  - done.
  - simpl in Hk', Hp. apply NoDup_cons in Hnd as [Hnin Hnd].
    case_bool_decide as Heq.
    + subst k'. rewrite decide_True by (rewrite Hk'; left).
      constructor; simpl.
      * by rewrite decide_True, Hp.
      * eapply Forall2_impl_elem; [exact Hrest|].
        intros g q _ Hq [Hg1 Hg2]. split; [done|].
        rewrite decide_False, app_nil_r; [done|].
        intros Hbad. apply Hnin. rewrite Hk', <- Hbad.
        apply list_elem_of_fmap. eauto.
    + specialize (IH Hnd).
      assert (Hne : page_key p <> Ok k) by congruence.
      destruct (decide (Ok k ∈ page_key <$> ps)) as [Hin|Hnin'].
      * rewrite decide_True by (by right).
        constructor; [|done]. simpl.
        by rewrite decide_False, app_nil_r.
      * rewrite decide_False by (rewrite elem_of_cons; intros [?|?]; [congruence|done]).
        by rewrite IH.
Qed.

(** The first loop: one group for each key, in the order in which the keys
    first occur, holding all the pages of its key in input order. *)
Lemma group_pages_spec (P : list dict) (grouped : list (key * list dict)) :
  group_pages P = Ok grouped ->
  Forall2 (fun g p => page_key p = Ok g.1 /\
             g.2 = filter (fun q => page_key q = page_key p) P)
          grouped (first_by page_key P).
Proof.
  unfold group_pages. revert grouped.
  induction P as [|x P IH] using rev_ind; intros grouped Hrun.
  - injection Hrun as <-. constructor.
  - rewrite for_each_snoc in Hrun.
    destruct (for_each _ P []) as [g0|] eqn:Hg0; simpl in Hrun; [|done].
    destruct (page_key x) as [k|] eqn:Hk; simpl in Hrun; [|done].
    injection Hrun as <-. specialize (IH g0 eq_refl).
    pose proof (group_append_spec g0 _ k x _ IH (first_by_NoDup page_key P)) as Happ.
    rewrite first_by_snoc.
    destruct (decide (Ok k ∈ page_key <$> first_by page_key P)) as [Hin|Hnin].
    + rewrite <- Hk in Hin. rewrite first_by_keys in Hin.
      rewrite decide_True by done.
      eapply Forall2_impl; [exact Happ|].
      intros g p [Hg1 Hg2]. split; [done|].
      rewrite Hg2, filter_app, filter_cons, filter_nil, Hk.
      destruct (decide (page_key p = Ok k)).
      * by rewrite decide_True.
      * by rewrite decide_False.
    + rewrite <- Hk in Hnin. rewrite first_by_keys in Hnin.
      rewrite decide_False by done. rewrite Happ.
      apply Forall2_app.
      * eapply Forall2_impl_elem; [exact IH|].
        intros g p _ Hp [Hg1 Hg2]. split; [done|].
        rewrite Hg2, filter_app, filter_cons, filter_nil.
        rewrite decide_False, app_nil_r; [done|].
        intros Hbad. apply Hnin. rewrite Hbad.
        apply list_elem_of_fmap. exists p. split; [done|].
        eapply elem_of_sublist; [done|apply first_by_sublist].
      * constructor; [|constructor]. simpl. split; [done|].
        rewrite filter_app, filter_cons, filter_nil, decide_True by done.
        rewrite filter_none; [done|].
        intros q Hq Hbad. apply Hnin. rewrite <- Hbad.
        apply list_elem_of_fmap. eauto.
Qed.

Lemma group_append_concat (k : key) (x : dict) (grouped : list (key * list dict)) :
  concat (group_append k x grouped).*2 ≡ₚ x :: concat grouped.*2.
Proof.
  induction grouped as [|[k' pages] grouped IH]; simpl; [done|].
  case_bool_decide; simpl.
  - rewrite <- app_assoc. simpl. by rewrite <- Permutation_middle.
  - rewrite IH. by rewrite <- Permutation_middle.
Qed.

Lemma group_pages_concat (P : list dict) (grouped : list (key * list dict)) :
  group_pages P = Ok grouped -> concat grouped.*2 ≡ₚ P.
Proof.
  unfold group_pages. revert grouped.
  induction P as [|x P IH] using rev_ind; intros grouped Hrun.
  - by injection Hrun as <-.
  - rewrite for_each_snoc in Hrun.
    destruct (for_each _ P []) as [g0|] eqn:Hg0; simpl in Hrun; [|done].
    destruct (page_key x) as [k|]; simpl in Hrun; [|done].
    injection Hrun as <-.
    rewrite group_append_concat, (IH g0 eq_refl). by rewrite <- Permutation_cons_append.
Qed.

(** A loop that appends one result for each element. *)
Lemma for_each_collect {A B : Type} (f : A -> result B) (xs : list A) (acc out : list B) :
  for_each (fun acc x => let! y := f x in Ok (acc ++ [y])) xs acc = Ok out ->
  exists ys, out = acc ++ ys /\ Forall2 (fun x y => f x = Ok y) xs ys.
Proof.
  revert acc. induction xs as [|x xs IH]; intros acc Hrun; simpl in Hrun.
  - injection Hrun as <-. exists []. by rewrite app_nil_r.
  - destruct (f x) as [y|] eqn:Hy; simpl in Hrun; [|done].
    destruct (IH _ Hrun) as (ys & -> & Hys).
    exists (y :: ys). rewrite <- app_assoc. split; [done|by constructor].
Qed.

Lemma merge_groups (invs out : list dict) :
  merge_multipage_invoices invs = Ok out <->
  exists grouped, group_pages invs = Ok grouped
    /\ Forall2 (fun g m => merge_group g.2 = Ok m) grouped out.
Proof.
  unfold merge_multipage_invoices. split.
  - destruct (group_pages invs) as [grouped|]; simpl; [|done]. intros Hrun.
    apply for_each_collect in Hrun as (ys & -> & Hys). eauto.
  - intros (grouped & -> & Hout). simpl.
    assert (Hgen : forall acc,
      for_each (fun merged_invoices g =>
                  let! merged := merge_group g.2 in Ok (merged_invoices ++ [merged]))
               grouped acc = Ok (acc ++ out)); [|exact (Hgen [])].
    induction Hout as [|g m grouped out Hm _ IH]; intros acc; simpl.
    + by rewrite app_nil_r.
    + rewrite Hm. simpl. rewrite IH, <- app_assoc. done.
Qed.

Lemma page_key_ext (d d' : dict) :
  dict_get "invoice_num" d = dict_get "invoice_num" d' ->
  dict_get "vendor_name" d = dict_get "vendor_name" d' ->
  dict_get "invoice_date" d = dict_get "invoice_date" d' ->
  page_key d = page_key d'.
Proof. unfold page_key, get. by intros -> -> ->. Qed.

(** The merged record carries the grouping fields of the first page. *)
Lemma merge_group_key (pages : list dict) (m first : dict) :
  merge_group pages = Ok m -> head pages = Some first -> page_key m = page_key first.
Proof.
  intros Hm Hh. apply merge_group_spec in Hm as (first' & _ & Hh' & _ & _ & _ & _ & Hk).
  assert (first' = first) as -> by congruence.
  apply page_key_ext; apply Hk; repeat split; ne_keys.
Qed.


Lemma resolved_last (f : string) (before after : list dict) (p : dict) :
  supplies f p -> Forall (fun q => ~ supplies f q) after ->
  resolved f (before ++ p :: after) = Some (get f p).
Proof.
  intros Hp Hafter. unfold resolved.
  rewrite filter_app, filter_cons_True by done.
  rewrite (filter_none _ after) by (by apply Forall_forall).
  rewrite last_snoc. by apply truthy_get.
Qed.

Lemma resolved_none (f : string) (pages : list dict) :
  Forall (fun q => ~ supplies f q) pages ->
  resolved f pages = head pages ≫= dict_get f.
Proof.
  intros Hnone. unfold resolved.
  by rewrite (filter_none _ pages) by (by apply Forall_forall).
Qed.

End MergeFacts.

(** ** When the merge returns *)

Module MergeReturns.
Import Merge MergeFacts.

Lemma store_items_returns (d2 d : dict) :
  forallb (fun kv => hashable kv.1) d2 = true ->
  exists d', for_each store_item d2 d = Ok d'.
Proof.
  revert d. induction d2 as [|[k v] d2 IH]; intros d Hall; simpl in *; [eauto|].
  apply andb_prop in Hall as [Hk Hall]. unfold store_item at 1. simpl.
  unfold hashable in Hk. destruct (hash_value k); [|done]. simpl. by apply IH.
Qed.

Lemma merging_set (k : string) (v : value) (m : dict) :
  u k <> u "line_items" -> u k <> u "tax_breakdown" ->
  merging m -> merging (dict_set k v m).
Proof.
  intros H1 H2 [[l Hl] [t Ht]]. split; [exists l|exists t];
    by rewrite dict_get_set_ne.
Qed.

Lemma merge_page_returns (m p : dict) :
  merging m -> page_shape p = true ->
  exists m', merge_page m p = Ok m' /\ merging m'.
Proof.
  intros [[l Hl] [t Ht]] Hp. unfold page_shape in Hp.
  apply andb_prop in Hp as [Hp Htax]. apply andb_prop in Hp as [_ Hitems].
  unfold merge_page. rewrite (proj2 (getitem_Ok _ _ _) Hl). simpl.
  unfold page_items in Hitems.
  destruct (iter_value _) as [xs|]; [|done]. simpl. clear Hitems.
  set (m1 := dict_set "line_items" (VList (l ++ xs)) m).
  assert (H1 : merging m1).
  { split; [exists (l ++ xs); apply dict_get_set_eq|].
    exists t. unfold m1. by rewrite dict_get_set_ne by ne_keys. }
  clearbody m1. clear Hl Ht l t m.
  assert (H2 : exists m2, (if truthy (get "tax_breakdown" p)
                then let! t := getitem "tax_breakdown" m1 in
                     let! other := getitem "tax_breakdown" p in
                     let! t' := dict_update t other in
                     Ok (dict_set "tax_breakdown" t' m1)
                else Ok m1) = Ok m2 /\ merging m2).
  { destruct (truthy (get "tax_breakdown" p)) eqn:Ht; [|eauto]. simpl in Htax.
    destruct H1 as [[l Hl] [t Ht1]].
    rewrite (proj2 (getitem_Ok _ _ _) Ht1). simpl.
    rewrite (proj2 (getitem_Ok _ _ _) (truthy_get _ _ Ht)). simpl.
    destruct (get "tax_breakdown" p) as [| | | | | |d]; try done. simpl.
    destruct (store_items_returns d t Htax) as [d' ->]. simpl.
    eexists. split; [done|]. split.
    - exists l. by rewrite dict_get_set_ne by ne_keys.
    - eexists. apply dict_get_set_eq. }
  destruct H2 as (m2 & -> & H2). simpl. clear H1 m1 Htax.
  assert (H3 : exists m3, (if truthy (get "subtotal" p)
                then let! v := getitem "subtotal" p in Ok (dict_set "subtotal" v m2)
                else Ok m2) = Ok m3 /\ merging m3).
  { destruct (truthy (get "subtotal" p)) eqn:Ht; [|eauto].
    rewrite (proj2 (getitem_Ok _ _ _) (truthy_get _ _ Ht)). simpl.
    eexists. split; [done|]. apply merging_set; [ne_keys..|done]. }
  destruct H3 as (m3 & -> & H3). simpl.
  destruct (truthy (get "total" p)) eqn:Ht; [|eauto].
  rewrite (proj2 (getitem_Ok _ _ _) (truthy_get _ _ Ht)). simpl.
  eexists. split; [done|]. apply merging_set; [ne_keys..|done].
Qed.

Lemma merge_pages_returns (pages : list dict) (m : dict) :
  merging m -> forallb page_shape pages = true ->
  exists m', for_each merge_page pages m = Ok m'.
Proof.
  revert m. induction pages as [|p pages IH]; intros m Hm Hall; simpl in *; [eauto|].
  apply andb_prop in Hall as [Hp Hall].
  destruct (merge_page_returns m p Hm Hp) as (m1 & -> & Hm1). simpl. by apply IH.
Qed.

Lemma unique_items_returns (items : list value) (st : list item_key_t * list value) :
  forallb (fun it => is_ok (item_key it)) items = true ->
  exists st', for_each unique_step items st = Ok st'.
Proof.
  revert st. induction items as [|x xs IH]; intros st Hall; simpl in *; [eauto|].
  apply andb_prop in Hall as [Hx Hall]. unfold unique_step at 1.
  destruct (item_key x); [|done]. simpl.
  destruct (bool_decide _); simpl; by apply IH.
Qed.

Lemma page_items_shape (pages : list dict) (xss : list (list value)) :
  forallb page_shape pages = true ->
  Forall2 (fun p xs => page_items p = Ok xs) pages xss ->
  forallb (fun it => is_ok (item_key it)) (concat xss) = true.
Proof.
  intros Hall Hxss. induction Hxss as [|p xs pages xss Hp _ IH]; simpl in *; [done|].
  apply andb_prop in Hall as [Hshape Hall].
  rewrite forallb_app, IH by done. rewrite andb_true_r.
  unfold page_shape in Hshape. rewrite Hp in Hshape.
  apply andb_prop in Hshape as [Hshape _]. by apply andb_prop in Hshape as [_ ?].
Qed.

Lemma merge_group_returns (pages : list dict) :
  pages <> [] -> forallb page_shape pages = true ->
  exists m, merge_group pages = Ok m.
Proof.
  intros Hne Hall. unfold merge_group. destruct pages as [|first rest]; [done|].
  set (m0 := dict_set "tax_breakdown" _ _).
  assert (H0 : merging m0).
  { split; [exists []|exists []]; unfold m0.
    - rewrite dict_get_set_ne by ne_keys. apply dict_get_set_eq.
    - apply dict_get_set_eq. }
  destruct (merge_pages_returns _ m0 H0 Hall) as [m1 H1]. rewrite H1. simpl.
  eapply merge_pages_spec in H1 as (xss & Hxss & Hl & _);
    [|unfold m0; rewrite dict_get_set_ne by ne_keys; apply dict_get_set_eq].
  rewrite (proj2 (getitem_Ok _ _ _) Hl). simpl.
  destruct (unique_items_returns (concat xss) ([], [])) as [st ->]; [|simpl; eauto].
  by eapply page_items_shape.
Qed.

Lemma group_pages_returns (invs : list dict) :
  forallb (fun p => is_ok (page_key p)) invs = true ->
  exists grouped, group_pages invs = Ok grouped.
Proof.
  unfold group_pages. generalize (@nil (key * list dict)).
  induction invs as [|p invs IH]; intros g Hall; simpl in *; [eauto|].
  apply andb_prop in Hall as [Hp Hall].
  destruct (page_key p); [|done]. simpl. by apply IH.
Qed.

(** On pages of the expected shape the merge returns. *)
Lemma merge_returns (invs : list dict) :
  forallb page_shape invs = true ->
  exists out, merge_multipage_invoices invs = Ok out.
Proof.
  intros Hall.
  destruct (group_pages_returns invs) as [grouped Hg].
  { rewrite forallb_forall in Hall |- *. intros p Hp. specialize (Hall p Hp).
    unfold page_shape in Hall. apply andb_prop in Hall as [Hall _].
    by apply andb_prop in Hall as [? _]. }
  assert (Hgroups : Forall (fun g => exists m, merge_group g.2 = Ok m) grouped).
  { pose proof (group_pages_spec _ _ Hg) as Hspec.
    pose proof (group_pages_concat _ _ Hg) as Hperm.
    apply Forall_forall. intros g Hin.
    apply list_elem_of_lookup in Hin as [i Hi].
    destruct (Forall2_lookup_l _ _ _ _ _ Hspec Hi) as (p & Hpi & _ & Hp2).
    apply merge_group_returns.
    - rewrite Hp2. intros Hnil.
      apply list_elem_of_lookup_2 in Hpi.
      pose proof (elem_of_sublist _ _ _ Hpi (first_by_sublist page_key invs)) as Hp.
      assert (Hpf : p ∈ filter (fun q => page_key q = page_key p) invs)
        by (by apply list_elem_of_filter).
      rewrite Hnil in Hpf. by apply elem_of_nil in Hpf.
    - rewrite forallb_forall in Hall |- *. intros q Hq. apply Hall.
      apply list_elem_of_In. rewrite <- Hperm.
      apply list_elem_of_In, in_concat. exists g.2. split; [|done].
      apply list_elem_of_In, list_elem_of_fmap. exists g. split; [done|].
      by eapply list_elem_of_lookup_2. }
  assert (Hout : exists out, Forall2 (fun g m => merge_group g.2 = Ok m) grouped out).
  { clear -Hgroups. induction Hgroups as [|g grouped [m Hm] _ [out IH]].
    - exists []. constructor.
    - exists (m :: out). by constructor. }
  destruct Hout as [out Hout]. exists out. apply merge_groups. eauto.
Qed.

End MergeReturns.

(** ** The merge stage *)

Module MergeTheorems.
Import Merge MergeFacts.


Lemma scenario_page_key (p : dict) :
  scenario_key p ->
  page_key p = Ok (AStr (u "INV-1"), AStr (u "Acme"), AStr (u "2024-01-01")).
Proof. intros (H1 & H2 & H3). unfold page_key. by rewrite H1, H2, H3. Qed.

Lemma get_or_get (k : string) (dflt v : value) (d : dict) :
  get k d = v -> v <> VNone -> get_or k dflt d = v.
Proof. unfold get, get_or. destruct (dict_get k d); simpl; congruence. Qed.

(** C3. In every merged record, [subtotal] and [total] are the outcome of
    letting each page of the group, in page order, overwrite the field
    exactly when the page supplies a truthy (non-empty, non-zero) value; so
    the last page that supplies a value wins.  In particular, for two pages
    with key ("INV-1", "Acme", "2024-01-01"), the first with two line items
    and [total = 0], the second with one line item and [total = 1180], the
    pages of the expected shape and the three items structurally distinct,
    the merge returns one record, with the three line items and
    [total = 1180]. *)
Theorem merge_totals_last_page_wins :
  (forall invs out, merge_multipage_invoices invs = Ok out ->
     exists grouped, group_pages invs = Ok grouped /\
       Forall2 (fun g m =>
         forall f, f = "subtotal"%string \/ f = "total"%string ->
           dict_get f m = foldl (overwrite f) (head g.2 ≫= dict_get f) g.2
           /\ dict_get f m = resolved f g.2
           /\ forall before p after,
                g.2 = before ++ p :: after -> supplies f p ->
                Forall (fun q => ~ supplies f q) after ->
                dict_get f m = Some (get f p))
         grouped out)
  /\ (forall p1 p2 i1 i2 i3,
        scenario_key p1 -> scenario_key p2 ->
        get "line_items" p1 = VList [i1; i2] -> get "total" p1 = VInt 0 ->
        get "line_items" p2 = VList [i3] -> get "total" p2 = VInt 1180 ->
        NoDup [item_key i1; item_key i2; item_key i3] ->
        page_shape p1 = true -> page_shape p2 = true ->
        exists m, merge_multipage_invoices [p1; p2] = Ok [m]
          /\ dict_get "line_items" m = Some (VList [i1; i2; i3])
          /\ dict_get "total" m = Some (VInt 1180)).
Proof.
  split.
  - intros invs out Hrun. apply merge_groups in Hrun as (grouped & Hg & Hout).
    exists grouped. split; [done|].
    eapply Forall2_impl; [exact Hout|]. intros g m Hm.
    apply merge_group_spec in Hm as (first & xss & Hh & _ & _ & Hs & Ht & _).
    assert (Hres : forall f, f = "subtotal"%string \/ f = "total"%string ->
                             dict_get f m = resolved f g.2)
      by (intros f [->| ->]; done).
    intros f Hf. split_and!.
    + rewrite overwrite_resolved. by apply Hres.
    + by apply Hres.
    + intros before p after Hpages Hp Hafter.
      rewrite Hres, Hpages by done. by apply resolved_last.
  - intros p1 p2 i1 i2 i3 Hk1 Hk2 Hl1 Ht1 Hl2 Ht2 Hnd Hs1 Hs2.
    destruct (MergeReturns.merge_returns [p1; p2]) as [out Hrun];
      [simpl; by rewrite Hs1, Hs2|].
    rewrite Hrun.
    apply merge_groups in Hrun as (grouped & Hg & Hout).
    unfold group_pages in Hg. simpl in Hg.
    rewrite !scenario_page_key in Hg by done. simpl in Hg.
    injection Hg as <-.
    apply Forall2_cons_inv_l in Hout as (m & out' & Hm & Hnil & ->).
    apply Forall2_nil_inv_l in Hnil as ->. exists m. split; [done|].
    change (merge_group [p1; p2] = Ok m) in Hm.
    apply merge_group_spec in Hm as (first & xss & _ & Hxss & Hl & _ & Ht & _).
    apply Forall2_cons_inv_l in Hxss as (xs1 & xss' & Hx1 & Hxss & ->).
    apply Forall2_cons_inv_l in Hxss as (xs2 & xss'' & Hx2 & Hxss & ->).
    apply Forall2_nil_inv_l in Hxss as ->.
    unfold page_items in Hx1, Hx2.
    rewrite (get_or_get _ _ _ _ Hl1) in Hx1 by done.
    rewrite (get_or_get _ _ _ _ Hl2) in Hx2 by done.
    injection Hx1 as <-. injection Hx2 as <-. split.
    + rewrite Hl, first_by_NoDup_id by exact Hnd. done.
    + rewrite Ht. change [p1; p2] with ([p1] ++ [p2]).
      rewrite resolved_last; [by rewrite Ht2| |constructor].
      unfold supplies. by rewrite Ht2.
Qed.

Lemma unique_items_keys (items : list value) (st0 st : list item_key_t * list value) :
  for_each unique_step items st0 = Ok st ->
  Forall (fun it => is_ok (item_key it) = true) items.
Proof.
  revert st0. induction items as [|x xs IH]; intros st0 Hu; [constructor|].
  simpl in Hu. unfold unique_step at 1 in Hu.
  destruct (item_key x) as [k|] eqn:Hk; simpl in Hu; [|done].
  constructor; [by rewrite Hk|].
  destruct (bool_decide _); simpl in Hu; by eapply IH.
Qed.


(** C10. When no page of a group supplies a truthy [subtotal] (or [total]),
    the merged record has that field exactly as the first page of the group
    has it: the same value if the first page stores one, even 0 or empty,
    and no entry if the first page has none. *)
Theorem merge_keeps_first_page_totals (invs out : list dict) :
  merge_multipage_invoices invs = Ok out ->
  exists grouped, group_pages invs = Ok grouped /\
    Forall2 (fun g m =>
      exists first, head g.2 = Some first /\
        forall f, f = "subtotal"%string \/ f = "total"%string ->
          Forall (fun p => truthy (get f p) = false) g.2 ->
          dict_get f m = dict_get f first)
      grouped out.
Proof.
  intros Hrun. apply merge_groups in Hrun as (grouped & Hg & Hout).
  exists grouped. split; [done|].
  eapply Forall2_impl; [exact Hout|]. intros g m Hm.
  apply merge_group_spec in Hm as (first & xss & Hh & _ & _ & Hs & Ht & _).
  exists first. split; [done|]. intros f Hf Hnone.
  assert (Hres : dict_get f m = resolved f g.2) by (by destruct Hf as [->| ->]).
  rewrite Hres, resolved_none, Hh; [done|].
  eapply Forall_impl; [exact Hnone|]. unfold supplies. intros p Hp. congruence.
Qed.

End MergeTheorems.

Module FormatTheorems.
Import Format Shape.











(** The description cell holds no delimiter and at most 50 characters. *)
Lemma description_cell (description : pystr) :
  (pipe ∉ take 50 (replace pipe slash description))
  /\ (length (take 50 (replace pipe slash description)) <= 50)%nat.
Proof.
  split.
  - intros Hin. apply elem_of_take in Hin as (i & Hi & _).
    apply list_elem_of_lookup_2 in Hi.
    apply list_elem_of_In, in_map_iff in Hi as (c & Hc & _).
    destruct (c =? pipe)%N eqn:Hcp; [done|].
    apply N.eqb_neq in Hcp. congruence.
  - rewrite length_take. lia.
Qed.

(** C7, on the code.  The description cell never holds the delimiter and
    never more than 50 characters; the other cells are written as they are.
    For the line item
    [{"description": "Bolt|M8", "hsn_sac": "73|18", "quantity": 2, "rate": 5,
      "unit": "kg|m", "amount": 10}]
    the row keeps the delimiters of [hsn_sac] and [unit]: it has nine of
    them, where a row of six columns has seven. *)
Theorem format_item_delimiter_in_other_fields (rt : py_runtime) :
  (forall d description,
     get_or "description" (VStr []) d = VStr description ->
     exists cells,
       format_item rt (VDict d)
       = Ok (u "| " ++ take 50 (replace pipe slash description) ++ cells)
       /\ (pipe ∉ take 50 (replace pipe slash description))
       /\ (length (take 50 (replace pipe slash description)) <= 50)%nat)
  /\ format_item rt pipe_item
     = Ok (u "| Bolt/M8 | 73|18 | 2 | 5 | kg|m | 10.00 |" ++ nl)
  /\ length (filter (fun c => c = pipe)
               (u "| Bolt/M8 | 73|18 | 2 | 5 | kg|m | 10.00 |")) = 9%nat.
Proof.
  split_and!; [|reflexivity..].
  intros d description Hd. unfold format_item. rewrite Hd.
  eexists. split; [reflexivity|]. apply description_cell.
Qed.

End FormatTheorems.

Module IngestTheorems.

Lemma split_pages_spec (n : Z) (pages : list page_source) (acc : list page) :
  split_pages n pages acc
  = acc ++ omap page_of (zip (seqZ (n + 1) (Z.of_nat (length pages))) pages).
Proof.
  revert n acc. induction pages as [|p pages IH]; intros n acc.
  - simpl. by rewrite app_nil_r.
  - cbn [split_pages length]. rewrite seqZ_cons by lia.
    replace (Z.pred (Z.of_nat (S (length pages)))) with (Z.of_nat (length pages)) by lia.
    replace (Z.succ (n + 1)) with (n + 1 + 1) by lia.
    destruct p as [img txt|msg]; rewrite IH; simpl; [|done].
    by rewrite <- app_assoc.
Qed.

Lemma split_pages_acc (n : Z) (pages : list page_source) (acc : list page) :
  split_pages n pages acc = acc ++ split_pages n pages [].
Proof. by rewrite (split_pages_spec n pages []), split_pages_spec. Qed.

Lemma split_pages_app (n : Z) (xs ys : list page_source) (acc : list page) :
  split_pages n (xs ++ ys) acc
  = split_pages (n + Z.of_nat (length xs)) ys (split_pages n xs acc).
Proof.
  revert n acc. induction xs as [|x xs IH]; intros n acc.
  - simpl. by rewrite Z.add_0_r.
  - cbn [app split_pages length].
    replace (n + Z.of_nat (S (length xs))) with (n + 1 + Z.of_nat (length xs)) by lia.
    destruct x; apply IH.
Qed.

(** C9. Opening the document is the only failure of the loading stage that
    reaches the caller.  When the document opens, loading returns: with one
    entry for each page that rendered, numbered by its position in the
    document, and nothing for a page that failed, the pages before and after
    a failed page being loaded as they stand.  When [pdfplumber.open] raises,
    [load_and_split_pdf] raises one exception and so does the whole pipeline,
    whatever the classification service would have answered.  The pipeline
    ends either with a result or with an exception, never with both. *)
Theorem load_failure_partitioning :
  (forall pages,
     load_and_split_pdf (Opened pages)
     = Ok (omap page_of (zip (seqZ 1 (Z.of_nat (length pages))) pages)))
  /\ (forall before msg after,
        load_and_split_pdf (Opened (before ++ PageError msg :: after))
        = Ok (split_pages 0 before []
              ++ split_pages (Z.of_nat (length before) + 1) after []))
  /\ (forall msg,
        load_and_split_pdf (OpenError msg)
        = Raise (Exception (u "Failed to load PDF: " ++ msg))
        /\ forall rt post,
             process_invoice_pdf rt post (OpenError msg)
             = Raise (Exception (u "Failed to load PDF: " ++ msg)))
  /\ (forall rt post pdf,
        (exists out, process_invoice_pdf rt post pdf = Ok out)
        <-> ~ exists e, process_invoice_pdf rt post pdf = Raise e).
Proof.
  split_and!.
  - intros pages. unfold load_and_split_pdf. by rewrite split_pages_spec.
  - intros before msg after. unfold load_and_split_pdf.
    rewrite split_pages_app. cbn [split_pages]. by rewrite split_pages_acc.
  - intros msg. split; [done|]. intros rt post. reflexivity.
  - intros rt post pdf. destruct (process_invoice_pdf rt post pdf) as [out|e].
    + split; [intros _ [e He]; done|eauto].
    + split; [intros [out Hout]; done|]. intros Hno. exfalso. apply Hno. eauto.
Qed.

(** A page whose answer cannot be decoded is skipped and the loop goes on. *)
Lemma extract_page_undecodable (rt : py_runtime) (post : page -> http_outcome)
    (extracted : list dict) (pg : page) (body : value) :
  post pg = Response body -> decode_response rt body = None ->
  extract_page rt post extracted pg = Ok extracted.
Proof. intros Hp Hd. unfold extract_page, call_ollama. by rewrite Hp, Hd. Qed.

(** So is a page whose request fails otherwise than by [ConnectionError]. *)
Lemma extract_page_request_error (rt : py_runtime) (post : page -> http_outcome)
    (extracted : list dict) (pg : page) :
  post pg = RequestError -> extract_page rt post extracted pg = Ok extracted.
Proof. intros Hp. unfold extract_page. by rewrite Hp. Qed.

(** C2, on the code: a page for which the model answers the text [[]].  The
    text is valid JSON, so [json.loads] returns the empty list and
    [call_ollama] hands it on; [extract_invoices_from_pages] then calls
    [.get] on a list, and the [AttributeError] ends the stage and the whole
    pipeline, whatever pages follow. *)
Theorem extract_raises_on_json_array (rt : py_runtime) (post : page -> http_outcome)
    (img txt : pystr) (rest : list page) (more : list page_source) :
  json_loads rt (u "[]") = Some (VList []) ->
  post (mk_page 1 img txt) = Response array_answer ->
  call_ollama rt (post (mk_page 1 img txt)) = Ok (VList [])
  /\ extract_invoices_from_pages rt post (mk_page 1 img txt :: rest) = Raise AttributeError
  /\ process_invoice_pdf rt post (Opened (PageOk img txt :: more)) = Raise AttributeError.
Proof.
  intros Hjson Hpost.
  assert (Hcall : call_ollama rt (post (mk_page 1 img txt)) = Ok (VList [])).
  { rewrite Hpost. unfold call_ollama.
    change (decode_response rt array_answer) with (json_loads rt (u "[]")).
    by rewrite Hjson. }
  assert (Hext : forall rest',
    extract_invoices_from_pages rt post (mk_page 1 img txt :: rest') = Raise AttributeError).
  { intros rest'. unfold extract_invoices_from_pages. cbn [for_each].
    unfold extract_page at 1. by rewrite Hcall. }
  split_and!; [done|apply Hext|].
  unfold process_invoice_pdf, load_and_split_pdf. cbn [rbind split_pages].
  rewrite split_pages_acc. cbn [app]. change (0 + 1) with 1. by rewrite Hext.
Qed.

(** C2 on two pages, with the sample runtime. *)
Lemma extract_raises_on_json_array_witness :
  extract_invoices_from_pages sample_runtime (fun _ => Response array_answer)
    [mk_page 1 [] []; mk_page 2 [] []] = Raise AttributeError.
Proof.
  apply (extract_raises_on_json_array sample_runtime (fun _ => Response array_answer)
           [] [] [mk_page 2 [] []] []); reflexivity.
Defined.

End IngestTheorems.


(** * The theorems on the sample data *)

Module Examples.
Import Merge.



(** C3 on Scenario A. *)
Lemma merge_totals_last_page_wins_witness :
  page_shape (scenario_page [bolt; nut] 0) = true
  /\ page_shape (scenario_page [washer] 1180) = true
  /\ exists m, merge_multipage_invoices scenario_pages = Ok [m]
       /\ dict_get "line_items" m = Some (VList [bolt; nut; washer])
       /\ dict_get "total" m = Some (VInt 1180).
Proof.
  split; [reflexivity|]. split; [reflexivity|].
  apply (proj2 MergeTheorems.merge_totals_last_page_wins
           (scenario_page [bolt; nut] 0) (scenario_page [washer] 1180)
           bolt nut washer);
    try reflexivity; try (repeat split; reflexivity).
  apply (bool_decide_unpack _). vm_compute. exact I.
Defined.


(** C10 on a page that has no [total]: the merged record has none. *)
Lemma merge_keeps_first_page_totals_witness :
  merge_multipage_invoices [page_without_number]
  = Ok (returned (merge_multipage_invoices [page_without_number]))
  /\ exists m, returned (merge_multipage_invoices [page_without_number]) = [m]
       /\ dict_get "total" m = dict_get "total" page_without_number
       /\ dict_get "total" m = None.
Proof.
  split; [reflexivity|].
  destruct (MergeTheorems.merge_keeps_first_page_totals [page_without_number]
              (returned (merge_multipage_invoices [page_without_number])))
    as (grouped & Hg & Htot); [reflexivity|].
  vm_compute in Hg. injection Hg as <-.
  apply Forall2_cons_inv_l in Htot as (m & out & (first & Hfirst & Hkeep) & _ & Hout).
  injection Hfirst as <-.
  exists m. split; [|split].
  - vm_compute in Hout. injection Hout as <- <-. reflexivity.
  - apply Hkeep; [by right|]. repeat constructor.
  - rewrite Hkeep; [reflexivity|by right|repeat constructor].
Defined.



End Examples.

(** * Further properties of the stages *)

Module MoreMerge.
Import Merge MergeFacts.

Lemma Forall2_fmap_eq {A B C : Type} (f : A -> C) (g : B -> C) (l : list A) (k : list B) :
  Forall2 (fun x y => f x = g y) l k -> f <$> l = g <$> k.
Proof. induction 1 as [|x y l k Hxy _ IH]; simpl; [done|]. by f_equal. Qed.

(** Each merged record carries the key of its group. *)
Lemma merged_group_keys (invs : list dict) (grouped : list (key * list dict))
    (out : list dict) :
  group_pages invs = Ok grouped ->
  Forall2 (fun g m => merge_group g.2 = Ok m) grouped out ->
  Forall2 (fun g m => page_key m = Ok g.1) grouped out.
Proof.
  intros Hg Hout. pose proof (group_pages_spec _ _ Hg) as Hspec.
  eapply Forall2_impl_elem; [exact Hout|]. intros [k pages] m Hgin _ Hm. simpl in *.
  destruct pages as [|first rest] eqn:Hpages; [done|].
  rewrite (merge_group_key _ _ first Hm eq_refl).
  apply list_elem_of_lookup in Hgin as [i Hi].
  destruct (Forall2_lookup_l _ _ _ _ _ Hspec Hi) as (p & _ & Hp1 & Hp2). simpl in *.
  assert (Hin : first ∈ filter (fun q => page_key q = page_key p) invs)
    by (rewrite <- Hp2; left).
  apply list_elem_of_filter in Hin as [Hin _]. congruence.
Qed.

(** The merged records carry, in order, the keys of the input in the order
    of their first occurrence; no two merged records share a key. *)
Lemma merged_keys (invs out : list dict) :
  merge_multipage_invoices invs = Ok out ->
  page_key <$> out = page_key <$> first_by page_key invs
  /\ NoDup (page_key <$> out)
  /\ Forall (fun m => is_ok (page_key m) = true) out.
Proof.
  intros Hrun. apply merge_groups in Hrun as (grouped & Hg & Hout).
  pose proof (merged_group_keys _ _ _ Hg Hout) as Hkeys.
  pose proof (group_pages_spec _ _ Hg) as Hspec.
  assert (Heq : page_key <$> out = page_key <$> first_by page_key invs).
  { transitivity (Ok <$> grouped.*1).
    - symmetry. rewrite <- list_fmap_compose. apply Forall2_fmap_eq.
      eapply Forall2_impl; [exact Hkeys|]. by intros g m ->.
    - rewrite <- list_fmap_compose. apply Forall2_fmap_eq.
      eapply Forall2_impl; [exact Hspec|]. by intros g p [-> _]. }
  split_and!; [done|rewrite Heq; apply first_by_NoDup|].
  apply Forall_forall. intros m Hm. apply list_elem_of_lookup in Hm as [i Hi].
  destruct (Forall2_lookup_r _ _ _ _ _ Hkeys Hi) as (g & _ & ->). done.
Qed.

End MoreMerge.

Module MoreDedup.
Import Dedup DedupFacts.

Lemma NoDup_fmap_finer {A B C : Type} (f : A -> B) (h : A -> C) (l : list A) :
  (forall x y, x ∈ l -> y ∈ l -> h x = h y -> f x = f y) ->
  NoDup (f <$> l) -> NoDup (h <$> l).
Proof.
  induction l as [|x l IH]; simpl; intros Hfiner; [constructor|].
  rewrite !NoDup_cons. intros [Hnin Hnd]. split.
  - intros Hin. apply Hnin. apply list_elem_of_fmap in Hin as (y & Hy & Hin).
    apply list_elem_of_fmap. exists y. split; [|done].
    apply Hfiner; [left|by right|done].
  - apply IH; [|done]. intros y z Hy Hz. apply Hfiner; by right.
Qed.

Lemma for_each_raises {A S : Type} (body : S -> A -> result S) (P : exn -> Prop)
    (xs : list A) (st : S) (e : exn) :
  (forall s x e', body s x = Raise e' -> P e') ->
  for_each body xs st = Raise e -> P e.
Proof.
  intros Hbody. revert st. induction xs as [|x xs IH]; intros st Hrun; [done|].
  simpl in Hrun. destruct (body st x) as [s|e'] eqn:Hb; simpl in Hrun.
  - by eapply IH.
  - injection Hrun as <-. by eapply Hbody.
Qed.

Lemma hash_value_raises (v : value) (e : exn) : hash_value v = Raise e -> e = TypeError.
Proof. destruct v; simpl; congruence. Qed.

(** The key of deduplication refines the key of grouping. *)
Lemma dedup_key_page_key (m : dict) :
  dedup_key m =
  let! k := Merge.page_key m in
  let! e := hash_value (get "total" m) in
  Ok (k, e).
Proof.
  unfold dedup_key, Merge.page_key.
  destruct (hash_value (get "invoice_num" m)); simpl; [|done].
  destruct (hash_value (get "vendor_name" m)); simpl; [|done].
  by destruct (hash_value (get "invoice_date" m)).
Qed.

Lemma dedup_key_ok (m : dict) :
  is_ok (Merge.page_key m) = true ->
  is_ok (dedup_key m) = hashable (get "total" m).
Proof.
  rewrite dedup_key_page_key. unfold hashable.
  destruct (Merge.page_key m); simpl; [|done]. intros _.
  by destruct (hash_value (get "total" m)).
Qed.

(** The loop raises nothing but [TypeError]. *)
Lemma run_raises (xs : list dict) (e : exn) : run xs = Raise e -> e = TypeError.
Proof.
  unfold run. apply (for_each_raises step (fun e => e = TypeError)).
  intros s x e'. unfold step, dedup_key.
  repeat (match goal with
          | |- context [hash_value ?v] =>
              destruct (hash_value v) eqn:?; simpl;
              [|intros [= <-]; by eapply hash_value_raises]
          end).
  by destruct (bool_decide _).
Qed.

(** On the output of the merge the loop keeps every record. *)
Lemma run_after_merge (invs merged : list dict) (st : state) :
  Merge.merge_multipage_invoices invs = Ok merged ->
  run merged = Ok st ->
  deduped_invoices st = merged /\ duplicates_count st = 0%nat.
Proof.
  intros Hrun Hst. destruct (MoreMerge.merged_keys _ _ Hrun) as (_ & Hnd & Hok).
  destruct (run_spec _ _ Hst) as (_ & Hout & Hcnt).
  assert (Hall : Forall (fun inv => is_ok (dedup_key inv) = true) merged)
    by (apply run_returns; by rewrite Hst).
  rewrite first_by_NoDup_id in Hout.
  - split; [done|]. rewrite Hout in Hcnt. lia.
  - eapply NoDup_fmap_finer; [|exact Hnd].
    rewrite Forall_forall in Hall. intros x y Hx Hy.
    pose proof (Hall x Hx) as Hx'. pose proof (Hall y Hy) as Hy'.
    rewrite !dedup_key_page_key in *.
    destruct (Merge.page_key x), (Merge.page_key y); simpl in *; try done.
    destruct (hash_value (get "total" x)), (hash_value (get "total" y));
      simpl in *; try done. congruence.
Qed.

(** X1. After the merge, deduplication has nothing to remove: the merged
    records have pairwise distinct grouping keys, and the key of
    deduplication only adds [total] to them.  So on the output of
    [merge_multipage_invoices], [deduplicate_invoices] returns its input
    unchanged, with a duplicate count of 0, unless the [total] of some
    merged record is a list or a dict, in which case it raises
    [TypeError]. *)
Theorem deduplicate_after_merge (invs merged : list dict) :
  Merge.merge_multipage_invoices invs = Ok merged ->
  deduplicate_invoices merged
  = (if forallb (fun m => hashable (get "total" m)) merged
     then Ok merged else Raise TypeError)
  /\ forall st, run merged = Ok st ->
       deduped_invoices st = merged /\ duplicates_count st = 0%nat.
Proof.
  intros Hrun.
  destruct (MoreMerge.merged_keys _ _ Hrun) as (_ & Hnd & Hok).
  assert (Hkeep : forall st, run merged = Ok st ->
            deduped_invoices st = merged /\ duplicates_count st = 0%nat)
    by (intros st; by apply (run_after_merge invs)).
  split; [|done]. unfold deduplicate_invoices.
  destruct (forallb _ merged) eqn:Htot.
  - assert (Hret : is_ok (run merged) = true).
    { apply run_returns. rewrite Forall_forall in Hok |- *. intros m Hm.
      rewrite dedup_key_ok by (by apply Hok).
      rewrite forallb_forall in Htot. apply Htot. by apply list_elem_of_In. }
    destruct (run merged) as [st|] eqn:Hst; [|done]. simpl.
    by destruct (Hkeep st eq_refl) as [-> _].
  - destruct (run merged) as [st|e] eqn:Hst; simpl.
    + exfalso. assert (Hall : Forall (fun inv => is_ok (dedup_key inv) = true) merged)
        by (apply run_returns; by rewrite Hst).
      apply not_true_iff_false in Htot. apply Htot.
      rewrite Forall_forall in Hall, Hok. apply forallb_forall. intros m Hm.
      apply list_elem_of_In in Hm. rewrite <- dedup_key_ok by (by apply Hok).
      by apply Hall.
    + by rewrite (run_raises _ _ Hst).
Qed.

End MoreDedup.

Module MoreIngest.

Lemma call_ollama_raises (rt : py_runtime) (o : http_outcome) (e : exn) :
  call_ollama rt o = Raise e -> o = ConnectionError.
Proof.
  destruct o as [| |body]; simpl; [done|done|].
  by destruct (decode_response rt body).
Qed.



(** What the loop appends for the pages it has seen. *)
Lemma extract_spec (rt : py_runtime) (post : page -> http_outcome) (pages : list page)
    (acc out : list dict) :
  for_each (extract_page rt post) pages acc = Ok out ->
  exists kept found,
    out = acc ++ found
    /\ kept `sublist_of` pages
    /\ Forall2 (fun pg d =>
         exists answer,
           call_ollama rt (post pg) = Ok (VDict answer)
           /\ is_str (get "type" answer) "invoice" = true
           /\ d = dict_set "source_page" (VInt (page_num pg)) answer) kept found.
Proof.
  revert acc. induction pages as [|pg pages IH]; intros acc Hrun; simpl in Hrun.
  - injection Hrun as <-. exists [], []. rewrite app_nil_r. by split_and!.
  - unfold extract_page at 1 in Hrun.
    destruct (call_ollama rt (post pg)) as [[| | | | | |d]|] eqn:Hcall;
      simpl in Hrun; try done.
    destruct (is_str (get "type" d) "invoice") eqn:Htype.
    + destruct (IH _ Hrun) as (kept & found & -> & Hsub & Hfound).
      exists (pg :: kept), (dict_set "source_page" (VInt (page_num pg)) d :: found).
      rewrite <- app_assoc. split_and!; [done|by apply sublist_skip|].
      constructor; [|done]. by exists d.
    + destruct (IH _ Hrun) as (kept & found & -> & Hsub & Hfound).
      exists kept, found. split_and!; [done|by apply sublist_cons|done].
Qed.

(** The records of the pages that were kept. *)
Lemma extract_records (rt : py_runtime) (post : page -> http_outcome)
    (pages : list page) (out : list dict) :
  extract_invoices_from_pages rt post pages = Ok out ->
  exists kept,
    kept `sublist_of` pages
    /\ Forall2 (fun pg d =>
         get "source_page" d = VInt (page_num pg)
         /\ get "type" d = VStr (u "invoice")
         /\ exists answer,
              call_ollama rt (post pg) = Ok (VDict answer)
              /\ forall k, u k <> u "source_page" ->
                   dict_get k d = dict_get k answer) kept out.
Proof.
  intros Hrun. apply extract_spec in Hrun as (kept & found & -> & Hsub & Hfound).
  simpl. exists kept. split; [done|].
  eapply Forall2_impl; [exact Hfound|].
  intros pg d (answer & Hcall & Htype & ->).
  assert (Hother : forall k, u "source_page" <> u k ->
    dict_get k (dict_set "source_page" (VInt (page_num pg)) answer) = dict_get k answer)
    by (intros k Hk; by apply dict_get_set_ne).
  split_and!.
  - unfold get. by rewrite dict_get_set_eq.
  - unfold get in *. rewrite Hother by ne_keys.
    unfold is_str in Htype.
    destruct (default VNone (dict_get "type" answer)); try done.
    by apply bool_decide_eq_true in Htype as ->.
  - exists answer. split; [done|]. intros k Hk. apply Hother. congruence.
Qed.



End MoreIngest.

Module MoreService.
Import MoreIngest.



(** *** The text between the braces *)

Lemma find_from_first (i : Z) (c : N) (pre rest : pystr) :
  c ∉ pre -> find_from i c (pre ++ c :: rest) = i + Z.of_nat (length pre).
Proof.
  revert i. induction pre as [|x pre IH]; intros i Hpre; simpl.
  - rewrite N.eqb_refl. lia.
  - apply not_elem_of_cons in Hpre as [Hx Hpre].
    destruct (N.eqb_spec x c) as [->|_]; [done|].
    rewrite IH by done. lia.
Qed.

Lemma find_from_absent (i : Z) (c : N) (s : pystr) :
  c ∉ s -> find_from i c s = -1.
Proof.
  revert i. induction s as [|x s IH]; intros i Hs; simpl; [done|].
  apply not_elem_of_cons in Hs as [Hx Hs].
  destruct (N.eqb_spec x c) as [->|_]; [done|]. by apply IH.
Qed.

Lemma not_in_rev (c : N) (s : pystr) : c ∉ rev s <-> c ∉ s.
Proof. by rewrite !list_elem_of_In, <- in_rev. Qed.

Lemma rfind_last (c : N) (pre post : pystr) :
  c ∉ post -> rfind (pre ++ c :: post) c = Z.of_nat (length pre).
Proof.
  intros Hpost. unfold rfind, find.
  rewrite rev_app_distr. simpl. rewrite <- app_assoc. simpl.
  rewrite find_from_first by (by rewrite not_in_rev).
  rewrite length_rev, length_app. simpl.
  destruct (length post) as [|n] eqn:Hn; simpl; [lia|].
  destruct (Pos.of_succ_nat n) eqn:Hp; lia.
Qed.

Lemma rfind_absent (c : N) (s : pystr) : c ∉ s -> rfind s c = -1.
Proof.
  intros Hs. unfold rfind, find. by rewrite find_from_absent by (by rewrite not_in_rev).
Qed.

Lemma clamp_inside (len i : Z) : 0 <= i <= len -> clamp len i = i.
Proof. intros Hi. unfold clamp. destruct (Z.ltb_spec i 0); lia. Qed.

Lemma slice_inside (pre mid post : pystr) :
  slice (pre ++ mid ++ post) (Z.of_nat (length pre))
        (Z.of_nat (length pre) + Z.of_nat (length mid)) = mid.
Proof.
  unfold slice. rewrite !clamp_inside by (rewrite !length_app; lia).
  rewrite Nat2Z.id.
  replace (Z.to_nat (Z.of_nat (length pre) + Z.of_nat (length mid) - Z.of_nat (length pre)))
    with (length mid) by lia.
  rewrite drop_app_length. by rewrite take_app_length.
Qed.

Lemma slice_to_zero (s : pystr) (a : Z) : slice s a 0 = [].
Proof.
  unfold slice. replace (clamp (Z.of_nat (length s)) 0) with 0
    by (unfold clamp; simpl; lia).
  replace (Z.to_nat (0 - clamp (Z.of_nat (length s)) a)) with 0%nat; [done|].
  unfold clamp. destruct (a <? 0); lia.
Qed.

Lemma decode_response_text (rt : py_runtime) (d : dict) (full : pystr) :
  answer_text d = Some full ->
  decode_response rt (VDict d)
  = json_loads rt (if startswith full fence
                   then slice full (find full lbrace) (rfind full rbrace + 1)
                   else full).
Proof.
  unfold answer_text, decode_response.
  destruct (get_or "response" (VStr []) d); try done.
  intros [= <-]. by destruct (startswith _ _).
Qed.

(** X5. What [call_ollama] decodes.  A stripped answer that does not start
    with a code fence is decoded as it stands.  Of a fenced answer only the
    text from its first opening brace to its last closing brace is decoded,
    so the fence, a language tag and any words around the object are
    dropped; a fenced answer without a closing brace decodes the empty
    text. *)
Theorem fenced_answer_is_cut (rt : py_runtime) (d : dict) (full : pystr) :
  answer_text d = Some full ->
  (startswith full fence = false -> decode_response rt (VDict d) = json_loads rt full)
  /\ (forall pre mid post,
        startswith full fence = true ->
        full = pre ++ lbrace :: mid ++ rbrace :: post ->
        lbrace ∉ pre -> rbrace ∉ post ->
        decode_response rt (VDict d) = json_loads rt (lbrace :: mid ++ [rbrace]))
  /\ (startswith full fence = true -> rbrace ∉ full ->
      decode_response rt (VDict d) = json_loads rt []).
Proof.
  intros Htext. rewrite (decode_response_text rt d full Htext). split_and!.
  - by intros ->.
  - intros pre mid post -> Hfull Hpre Hpost. f_equal.
    rewrite Hfull at 2 3. unfold find. rewrite find_from_first by done. simpl.
    change (pre ++ lbrace :: mid ++ rbrace :: post)
      with (pre ++ (lbrace :: mid) ++ rbrace :: post) at 1.
    rewrite app_assoc, rfind_last by done.
    rewrite Hfull.
    replace (pre ++ lbrace :: mid ++ rbrace :: post)
      with (pre ++ (lbrace :: mid ++ [rbrace]) ++ post)
      by (simpl; by rewrite <- app_assoc).
    replace (Z.of_nat (length (pre ++ lbrace :: mid)) + 1)
      with (Z.of_nat (length pre) + Z.of_nat (length (lbrace :: mid ++ [rbrace])))
      by (rewrite !length_app; simpl; rewrite length_app; simpl; lia).
    apply slice_inside.
  - intros -> Hno. f_equal. rewrite rfind_absent by done. apply slice_to_zero.
Qed.

(** *** Page numbers *)

Lemma numbered_pages (n : Z) (srcs : list page_source) :
  let pages := omap page_of (zip (seqZ n (Z.of_nat (length srcs))) srcs) in
  Forall (fun pg =>
    n <= page_num pg < n + Z.of_nat (length srcs)
    /\ srcs !! Z.to_nat (page_num pg - n)
       = Some (PageOk (image_base64 pg) (text pg))) pages
  /\ (forall i img txt, srcs !! i = Some (PageOk img txt) ->
        mk_page (n + Z.of_nat i) img txt ∈ pages).
Proof.
  revert n. induction srcs as [|src srcs IH]; intros n; simpl.
  - split; [constructor|]. intros i img txt Hi. by rewrite lookup_nil in Hi.
  - cbn [length]. rewrite seqZ_cons by lia.
    replace (Z.pred (Z.of_nat (S (length srcs)))) with (Z.of_nat (length srcs)) by lia.
    destruct (IH (Z.succ n)) as [Hall Hin]. cbn [zip zip_with omap list_omap].
    assert (Hrest : Forall (fun pg =>
      n <= page_num pg < n + Z.of_nat (S (length srcs))
      /\ (src :: srcs) !! Z.to_nat (page_num pg - n)
         = Some (PageOk (image_base64 pg) (text pg)))
      (omap page_of (zip (seqZ (Z.succ n) (Z.of_nat (length srcs))) srcs))).
    { eapply Forall_impl; [exact Hall|]. intros pg [Hrange Hlook]. split; [lia|].
      replace (Z.to_nat (page_num pg - n)) with (S (Z.to_nat (page_num pg - Z.succ n)))
        by lia.
      exact Hlook. }
    split.
    + unfold page_of at 1. simpl. destruct src as [img txt|msg]; [|exact Hrest].
      constructor; [|exact Hrest]. simpl. split; [lia|].
      by replace (n - n) with 0 by lia.
    + intros i img txt Hi. destruct i as [|i]; simpl in Hi.
      * injection Hi as ->. unfold page_of at 1. simpl.
        replace (n + Z.of_nat 0) with n by lia. apply list_elem_of_here.
      * apply Hin in Hi.
        replace (n + Z.of_nat (S i)) with (Z.succ n + Z.of_nat i) by lia.
        unfold page_of at 1. simpl. destruct src; [by apply list_elem_of_further|done].
Qed.

Lemma numbered_pages_increasing (n : Z) (srcs : list page_source) (i j : nat)
    (pi pj : page) :
  let pages := omap page_of (zip (seqZ n (Z.of_nat (length srcs))) srcs) in
  pages !! i = Some pi -> pages !! j = Some pj -> (i < j)%nat ->
  page_num pi < page_num pj.
Proof.
  revert n i j. induction srcs as [|src srcs IH]; intros n i j; simpl; [done|].
  cbn [length]. rewrite seqZ_cons by lia.
  replace (Z.pred (Z.of_nat (S (length srcs)))) with (Z.of_nat (length srcs)) by lia.
  cbn [zip zip_with omap list_omap]. unfold page_of at 1. simpl.
  destruct src as [img txt|msg]; [|apply IH].
  destruct i as [|i], j as [|j]; simpl; try lia.
  - intros [= <-] Hj _. simpl.
    pose proof (numbered_pages (Z.succ n) srcs) as [Hall _]. simpl in Hall.
    rewrite Forall_forall in Hall.
    apply list_elem_of_lookup_2, Hall in Hj. lia.
  - intros Hi Hj Hij. apply (IH (Z.succ n) i j); [done|done|lia].
Qed.

Lemma omap_shorter {A B : Type} (f : A -> option B) (l : list A) :
  (length (omap f l) <= length l)%nat.
Proof.
  induction l as [|x l IH]; [done|].
  change (omap f (x :: l)) with (match f x with Some y => y :: omap f l | None => omap f l end).
  destruct (f x); simpl; lia.
Qed.

Lemma increasing_NoDup (pages : list page) :
  (forall i j pi pj, pages !! i = Some pi -> pages !! j = Some pj -> (i < j)%nat ->
     page_num pi < page_num pj) ->
  NoDup (page_num <$> pages).
Proof.
  intros Hinc. apply NoDup_alt. intros i j x Hi Hj.
  rewrite list_lookup_fmap in Hi, Hj.
  destruct (pages !! i) as [pi|] eqn:Hpi; [|done].
  destruct (pages !! j) as [pj|] eqn:Hpj; [|done].
  simpl in Hi, Hj. injection Hi as Hi. injection Hj as Hj.
  destruct (lt_eq_lt_dec i j) as [[Hlt| ->]|Hlt]; [|done|].
  - pose proof (Hinc i j pi pj Hpi Hpj Hlt). lia.
  - pose proof (Hinc j i pj pi Hpj Hpi Hlt). lia.
Qed.

(** A loaded document has pages with distinct numbers, no more of them
    than the document has. *)
Lemma loaded_pages (pdf : pdf_source) (pages : list page) :
  load_and_split_pdf pdf = Ok pages ->
  exists srcs, pdf = Opened srcs
    /\ NoDup (page_num <$> pages)
    /\ (length pages <= length srcs)%nat.
Proof.
  destruct pdf as [msg|srcs]; [done|]. intros [= <-]. exists srcs.
  rewrite (IngestTheorems.split_pages_spec 0 srcs []). simpl.
  split_and!; [done| |].
  - apply increasing_NoDup. intros i j pi pj. apply (numbered_pages_increasing 1 srcs).
  - etrans; [apply omap_shorter|]. rewrite length_zip, length_seqZ. lia.
Qed.

(** X6. The pages that [load_and_split_pdf] returns are numbered by their
    place in the document: the numbers increase strictly, so no two pages
    share one, they lie between 1 and the number of pages of the document,
    a page that failed leaves its number unused, and the page numbered [i]
    holds the image and the text of the [i]-th page of the document. *)
Theorem loaded_pages_numbered (pdf : pdf_source) (pages : list page) :
  load_and_split_pdf pdf = Ok pages ->
  exists srcs,
    pdf = Opened srcs
    /\ (forall i j pi pj, pages !! i = Some pi -> pages !! j = Some pj ->
          (i < j)%nat -> page_num pi < page_num pj)
    /\ NoDup (page_num <$> pages)
    /\ (length pages <= length srcs)%nat
    /\ Forall (fun pg =>
         1 <= page_num pg <= Z.of_nat (length srcs)
         /\ srcs !! Z.to_nat (page_num pg - 1)
            = Some (PageOk (image_base64 pg) (text pg))) pages
    /\ (forall i img txt, srcs !! i = Some (PageOk img txt) ->
          mk_page (Z.of_nat i + 1) img txt ∈ pages)
    /\ (forall i msg, srcs !! i = Some (PageError msg) ->
          Z.of_nat i + 1 ∉ page_num <$> pages).
Proof.
  destruct pdf as [msg|srcs]; [done|]. intros [= <-]. exists srcs.
  rewrite (IngestTheorems.split_pages_spec 0 srcs []). simpl.
  pose proof (numbered_pages 1 srcs) as [Hall Hin].
  assert (Hinc : forall i j pi pj,
    omap page_of (zip (seqZ 1 (Z.of_nat (length srcs))) srcs) !! i = Some pi ->
    omap page_of (zip (seqZ 1 (Z.of_nat (length srcs))) srcs) !! j = Some pj ->
    (i < j)%nat -> page_num pi < page_num pj)
    by (intros i j pi pj; apply (numbered_pages_increasing 1 srcs)).
  split_and!; [done|done|by apply increasing_NoDup| |..].
  - etrans; [apply omap_shorter|]. rewrite length_zip, length_seqZ. lia.
  - eapply Forall_impl; [exact Hall|]. simpl. intros pg [Hrange Hlook]. split; [lia|done].
  - intros i img txt Hi. rewrite Z.add_comm. by apply Hin.
  - intros i msg Hi Hbad. apply list_elem_of_fmap in Hbad as (pg & Hnum & Hpg).
    rewrite Forall_forall in Hall. apply Hall in Hpg as [_ Hlook].
    rewrite <- Hnum in Hlook.
    replace (Z.to_nat (Z.of_nat i + 1 - 1)) with i in Hlook by lia. congruence.
Qed.

End MoreService.

Module MoreMergeFields.
Import Merge MergeFacts.

Lemma first_by_head {A K : Type} `{EqDecision K} (key : A -> K) (l : list A) :
  Forall (fun p => head (filter (fun q => key q = key p) l) = Some p) (first_by key l).
Proof.
  induction l as [|x l IH]; simpl; [constructor|]. constructor.
  - by rewrite filter_cons_True.
  - apply Forall_forall. intros p Hp. apply list_elem_of_filter in Hp as [Hne Hp].
    rewrite filter_cons_False by congruence.
    rewrite Forall_forall in IH. by apply IH.
Qed.

(** The first page of each group is the page that [first_by] keeps. *)
Lemma group_heads (invs : list dict) (grouped : list (key * list dict)) :
  group_pages invs = Ok grouped ->
  Forall2 (fun g p => head g.2 = Some p) grouped (first_by page_key invs).
Proof.
  intros Hg. pose proof (group_pages_spec _ _ Hg) as Hspec.
  eapply Forall2_impl_elem; [exact Hspec|].
  intros g p _ Hp [_ ->]. pose proof (first_by_head page_key invs) as Hh.
  rewrite Forall_forall in Hh. by apply Hh.
Qed.

Lemma Forall2_compose_l {A B C : Type} (R : A -> B -> Prop) (Q : A -> C -> Prop)
    (T : B -> C -> Prop) (l : list A) (k : list B) (o : list C) :
  Forall2 R l k -> Forall2 Q l o ->
  (forall x y z, R x y -> Q x z -> T y z) -> Forall2 T k o.
Proof.
  intros HR. revert o. induction HR as [|x y l k Hxy _ IH]; intros o HQ HT.
  - inversion HQ. constructor.
  - inversion HQ as [|? z ? o' Hxz Hrest]; subst. constructor; [by eapply HT|].
    by apply IH.
Qed.

Lemma merged_first_fields (invs out : list dict) :
  merge_multipage_invoices invs = Ok out ->
  Forall2 (fun p m => forall k, untouched k -> dict_get k m = dict_get k p)
          (first_by page_key invs) out.
Proof.
  intros Hrun. apply merge_groups in Hrun as (grouped & Hg & Hout).
  apply (Forall2_compose_l _ _ _ _ _ _ (group_heads _ _ Hg) Hout).
  intros g p m Hhead Hm.
  apply merge_group_spec in Hm as (first & xss & Hfirst & _ & _ & _ & _ & Hk).
  by assert (first = p) as -> by congruence.
Qed.

(** X7. Apart from [line_items], [tax_breakdown], [subtotal] and [total], a
    merged record has every field as the first page of its invoice has it,
    and no other field: in particular its [source_page] and its [type] are
    those of the first page, whatever the later pages of the invoice hold. *)
Theorem merge_keeps_first_page_fields (invs out : list dict) :
  merge_multipage_invoices invs = Ok out ->
  Forall2 (fun p m =>
    (forall k, untouched k -> dict_get k m = dict_get k p)
    /\ get "source_page" m = get "source_page" p
    /\ get "type" m = get "type" p
    /\ get "vendor_gstin" m = get "vendor_gstin" p
    /\ get "buyer_name" m = get "buyer_name" p
    /\ get "buyer_gstin" m = get "buyer_gstin" p)
    (first_by page_key invs) out.
Proof.
  intros Hrun. eapply Forall2_impl; [by apply merged_first_fields|].
  intros p m Hk.
  assert (Hget : forall k, untouched k -> get k m = get k p)
    by (intros k Hu; unfold get; by rewrite Hk).
  split_and!; [done|apply Hget..]; split_and!; ne_keys.
Qed.

(** *** The tax breakdown *)

Lemma dict_lookup_app (a : atom) (d1 d2 : dict) :
  dict_lookup a (d1 ++ d2)
  = match dict_lookup a d1 with Some v => Some v | None => dict_lookup a d2 end.
Proof.
  induction d1 as [|[k v] d1 IH]; simpl; [done|]. by destruct (key_is a k).
Qed.

Lemma store_items_spec (entries : list (value * value)) (t t' : dict) :
  for_each store_item entries t = Ok t' ->
  Forall (fun kv => hashable kv.1 = true) entries
  /\ forall a, dict_lookup a t'
       = match last_entry a entries with Some v => Some v | None => dict_lookup a t end.
Proof.
  revert t'. induction entries as [|[k v] entries IH] using rev_ind; intros t' Hrun.
  - injection Hrun as <-. by split.
  - rewrite for_each_snoc in Hrun.
    destruct (for_each store_item entries t) as [t1|]; simpl in Hrun; [|done].
    destruct (IH _ eq_refl) as [Hall Hlook].
    unfold store_item in Hrun. simpl in Hrun.
    destruct (hash_value k) as [b|] eqn:Hk; simpl in Hrun; [|done].
    injection Hrun as <-. split.
    + apply Forall_app. split; [done|]. constructor; [|done].
      unfold hashable. simpl. by rewrite Hk.
    + intros a. unfold last_entry. rewrite rev_app_distr. simpl.
      unfold key_is. rewrite Hk. destruct (bool_decide_reflect (a = b)) as [->|Hne].
      * by apply dict_lookup_store_eq.
      * rewrite dict_lookup_store_ne by (done || congruence). apply Hlook.
Qed.

Lemma update_pairs_spec (t : dict) (other v : value) :
  dict_update (VDict t) other = Ok v ->
  exists t', v = VDict t' /\ for_each store_item (update_pairs other) t = Ok t'.
Proof.
  assert (Hgen : forall xs d d',
    for_each (fun d x => let! kv := pair_of x in store_item d kv) xs d = Ok d' ->
    for_each store_item
      (omap (fun x => match pair_of x with Ok kv => Some kv | Raise _ => None end) xs) d
    = Ok d').
  { induction xs as [|x xs IH]; intros d d' Hrun; [done|].
    simpl in Hrun.
    change (omap ?f (x :: xs)) with (match f x with Some y => y :: omap f xs
                                                   | None => omap f xs end).
    cbn beta. destruct (pair_of x) as [kv|]; simpl in Hrun; [|done]. cbn [for_each].
    destruct (store_item d kv) as [d1|]; simpl in Hrun; [|done].
    cbn [rbind]. by apply IH. }
  unfold dict_update, update_pairs. intros Hrun.
  destruct other as [| | | | |xs|d2]; simpl in Hrun; try done.
  - destruct (for_each _ _ _) as [d'|] eqn:Hd; simpl in Hrun; [|done].
    injection Hrun as <-. exists d'. split; [done|]. by apply Hgen.
  - destruct (for_each _ _ _) as [d'|] eqn:Hd; simpl in Hrun; [|done].
    injection Hrun as <-. exists d'. split; [done|]. by apply Hgen.
  - destruct (for_each _ _ _) as [d'|] eqn:Hd; simpl in Hrun; [|done].
    injection Hrun as <-. by exists d'.
Qed.

Lemma merge_page_tax (m p m' t : dict) :
  merge_page m p = Ok m' ->
  dict_get "tax_breakdown" m = Some (VDict t) ->
  exists t', dict_get "tax_breakdown" m' = Some (VDict t')
             /\ for_each store_item (tax_entries p) t = Ok t'.
Proof.
  unfold merge_page, tax_entries. intros Hrun Ht.
  destruct (getitem "line_items" m) as [l|]; simpl in Hrun; [|done].
  destruct (list_extend l _) as [l'|]; simpl in Hrun; [|done].
  set (m1 := dict_set "line_items" l' m) in *.
  assert (H1 : dict_get "tax_breakdown" m1 = Some (VDict t))
    by (unfold m1; by rewrite dict_get_set_ne by ne_keys).
  clearbody m1.
  match type of Hrun with (let! x := ?r in _) = _ =>
    destruct r as [m2|] eqn:H2; simpl in Hrun; [|done] end.
  assert (H2' : exists t', dict_get "tax_breakdown" m2 = Some (VDict t')
    /\ for_each store_item
         (if truthy (get "tax_breakdown" p) then update_pairs (get "tax_breakdown" p)
          else []) t = Ok t').
  { destruct (truthy (get "tax_breakdown" p)) eqn:Htruthy.
    - rewrite (proj2 (getitem_Ok _ _ _) H1) in H2. cbn [rbind] in H2.
      rewrite (proj2 (getitem_Ok _ _ _) (truthy_get _ _ Htruthy)) in H2.
      cbn [rbind] in H2.
      destruct (dict_update _ _) as [v|] eqn:Hupd; cbn [rbind] in H2; [|done].
      injection H2 as <-. apply update_pairs_spec in Hupd as (t' & -> & Hstore).
      exists t'. split; [apply dict_get_set_eq|done].
    - injection H2 as <-. by exists t. }
  destruct H2' as (t' & H2' & Hstore). exists t'. split; [|done].
  clear H2 H1.
  match type of Hrun with (let! x := ?r in _) = _ =>
    destruct r as [m3|] eqn:H3; simpl in Hrun; [|done] end.
  assert (H3' : dict_get "tax_breakdown" m3 = Some (VDict t')).
  { destruct (truthy (get "subtotal" p)).
    - destruct (getitem "subtotal" p); simpl in H3; [|done].
      injection H3 as <-. by rewrite dict_get_set_ne by ne_keys.
    - by injection H3 as <-. }
  destruct (truthy (get "total" p)).
  - destruct (getitem "total" p); simpl in Hrun; [|done].
    injection Hrun as <-. by rewrite dict_get_set_ne by ne_keys.
  - by injection Hrun as <-.
Qed.

Lemma merge_pages_tax (pages : list dict) (m0 m t0 : dict) :
  for_each merge_page pages m0 = Ok m ->
  dict_get "tax_breakdown" m0 = Some (VDict t0) ->
  exists t, dict_get "tax_breakdown" m = Some (VDict t)
            /\ for_each store_item (concat (tax_entries <$> pages)) t0 = Ok t.
Proof.
  revert m0 t0. induction pages as [|p pages IH]; intros m0 t0 Hrun Ht; simpl in *.
  - injection Hrun as <-. by exists t0.
  - destruct (merge_page m0 p) as [m1|] eqn:H1; simpl in Hrun; [|done].
    destruct (merge_page_tax _ _ _ _ H1 Ht) as (t1 & Ht1 & Hs1).
    destruct (IH _ _ Hrun Ht1) as (t & Ht2 & Hs2).
    exists t. split; [done|]. rewrite for_each_app, Hs1. done.
Qed.

Lemma merge_group_tax (pages : list dict) (m : dict) :
  merge_group pages = Ok m ->
  exists t, dict_get "tax_breakdown" m = Some (VDict t)
            /\ for_each store_item (concat (tax_entries <$> pages)) [] = Ok t.
Proof.
  unfold merge_group. destruct pages as [|first rest]; [done|]. intros Hrun.
  set (m0 := dict_set "tax_breakdown" (VDict [])
               (dict_set "line_items" (VList []) first)) in *.
  assert (H0 : dict_get "tax_breakdown" m0 = Some (VDict []))
    by apply dict_get_set_eq.
  clearbody m0.
  destruct (for_each merge_page (first :: rest) m0) as [m1|] eqn:H1;
    simpl in Hrun; [|done].
  destruct (merge_pages_tax _ _ _ _ H1 H0) as (t & Ht & Hs).
  destruct (getitem "line_items" m1); simpl in Hrun; [|done].
  destruct (iter_value _); simpl in Hrun; [|done].
  destruct (for_each unique_step _ _); simpl in Hrun; [|done].
  injection Hrun as <-. exists t. split; [|done].
  by rewrite dict_get_set_ne by ne_keys.
Qed.

(** X9. The [tax_breakdown] of a merged record is a dict, built from
    nothing but the pages of the invoice: it holds a tax code exactly when
    some page of the invoice with a truthy [tax_breakdown] holds it, and then
    with the value of the last such page; the first page's own dict is not
    kept as it is, and a page with a falsy [tax_breakdown] adds nothing. *)
Theorem merge_tax_breakdown_last_page_wins (invs out : list dict) :
  merge_multipage_invoices invs = Ok out ->
  exists grouped, group_pages invs = Ok grouped /\
    Forall2 (fun g m =>
      exists t,
        dict_get "tax_breakdown" m = Some (VDict t)
        /\ (forall a, dict_lookup a t = last_entry a (concat (tax_entries <$> g.2)))
        /\ (forall a before p after,
              g.2 = before ++ p :: after ->
              is_Some (last_entry a (tax_entries p)) ->
              Forall (fun q => last_entry a (tax_entries q) = None) after ->
              dict_lookup a t = last_entry a (tax_entries p))
        /\ (Forall (fun q => truthy (get "tax_breakdown" q) = false) g.2 -> t = []))
      grouped out.
Proof.
  intros Hrun. apply merge_groups in Hrun as (grouped & Hg & Hout).
  exists grouped. split; [done|].
  eapply Forall2_impl; [exact Hout|]. intros [k pages] m Hm. simpl in *.
  apply merge_group_tax in Hm as (t & Ht & Hstore). exists t.
  pose proof (store_items_spec _ _ _ Hstore) as [_ Hlook].
  assert (Hall : forall a, dict_lookup a t = last_entry a (concat (tax_entries <$> pages))).
  { intros a. rewrite Hlook. simpl. by destruct (last_entry a _). }
  split_and!; [done|done| |].
  - intros a before p after -> [v Hv] Hafter. rewrite Hall, Hv.
    rewrite fmap_app, fmap_cons, concat_app. cbn [concat].
    unfold last_entry in *. rewrite !rev_app_distr, <- app_assoc, dict_lookup_app.
    assert (Hnone : dict_lookup a (rev (concat (tax_entries <$> after))) = None).
    { clear -Hafter. induction Hafter as [|q after Hq _ IH]; [done|].
      rewrite fmap_cons. cbn [concat].
      rewrite rev_app_distr, dict_lookup_app, IH. exact Hq. }
    by rewrite Hnone, dict_lookup_app, Hv.
  - intros Hfalsy.
    assert (Hnil : concat (tax_entries <$> pages) = []).
    { clear -Hfalsy. induction Hfalsy as [|q pages Hq _ IH]; [done|].
      rewrite fmap_cons. cbn [concat]. rewrite IH.
      unfold tax_entries. by rewrite Hq. }
    rewrite Hnil in Hstore. by injection Hstore as <-.
Qed.

End MoreMergeFields.

Module MergeStable.
Import Merge MergeFacts MergeReturns MoreMerge MoreMergeFields.

(** *** Storing into a dict *)

Lemma key_is_hash (a : atom) (k : value) : key_is a k = true <-> hash_value k = Ok a.
Proof.
  unfold key_is. destruct (hash_value k) as [b|]; [|done].
  rewrite bool_decide_eq_true. split; congruence.
Qed.

Lemma dict_lookup_key_atoms (a : atom) (d : dict) :
  is_Some (dict_lookup a d) <-> Ok a ∈ key_atoms d.
Proof.
  unfold key_atoms. induction d as [|[k v] d IH]; simpl.
  - split; [by intros [? ?]|]. by intros ?%elem_of_nil.
  - rewrite elem_of_cons, <- IH. destruct (key_is a k) eqn:Hk.
    + apply key_is_hash in Hk. split; [by left|eauto].
    + split; [by right|]. intros [Heq|?]; [|done].
      symmetry in Heq. apply key_is_hash in Heq. congruence.
Qed.

Lemma dict_store_absent (a : atom) (k v : value) (d : dict) :
  Ok a ∉ key_atoms d -> dict_store a k v d = d ++ [(k, v)].
Proof.
  unfold key_atoms. induction d as [|[k' v'] d IH]; simpl; [done|].
  intros [Hne Hd]%not_elem_of_cons.
  destruct (key_is a k') eqn:Hk; [apply key_is_hash in Hk; congruence|].
  by rewrite IH.
Qed.

Lemma dict_store_same (a : atom) (k v : value) (d : dict) :
  dict_lookup a d = Some v -> dict_store a k v d = d.
Proof.
  induction d as [|[k' v'] d IH]; simpl; [done|].
  destruct (key_is a k'); [by intros [= ->]|]. intros Hd. by rewrite IH.
Qed.

Lemma dict_store_twice (a : atom) (k v v' : value) (d : dict) :
  hash_value k = Ok a ->
  dict_store a k v (dict_store a k v' d) = dict_store a k v d.
Proof.
  intros Hk. apply key_is_hash in Hk.
  induction d as [|[k' w] d IH]; simpl; [by rewrite Hk|].
  destruct (key_is a k') eqn:Hk'; simpl; rewrite Hk'; [done|]. by rewrite IH.
Qed.

Lemma dict_store_comm (a b : atom) (k k' v v' : value) (d : dict) :
  a <> b -> is_Some (dict_lookup a d) -> is_Some (dict_lookup b d) ->
  dict_store a k v (dict_store b k' v' d) = dict_store b k' v' (dict_store a k v d).
Proof.
  intros Hne. induction d as [|[k0 v0] d IH]; simpl; [by intros [? ?]|].
  destruct (key_is a k0) eqn:Ha, (key_is b k0) eqn:Hb; simpl; rewrite ?Ha, ?Hb.
  - apply key_is_hash in Ha, Hb. congruence.
  - done.
  - done.
  - intros Hla Hlb. by rewrite IH.
Qed.

Lemma dict_set_same (k : string) (v : value) (d : dict) :
  dict_get k d = Some v -> dict_set k v d = d.
Proof. apply dict_store_same. Qed.

Lemma dict_set_twice (k : string) (v v' : value) (d : dict) :
  dict_set k v (dict_set k v' d) = dict_set k v d.
Proof. by apply dict_store_twice. Qed.

Lemma dict_set_comm (k k' : string) (v v' : value) (d : dict) :
  u k <> u k' -> is_Some (dict_get k d) -> is_Some (dict_get k' d) ->
  dict_set k v (dict_set k' v' d) = dict_set k' v' (dict_set k v d).
Proof. intros Hne. apply dict_store_comm. congruence. Qed.

(** *** Dicts with distinct keys *)

Lemma key_atoms_store (a : atom) (k v : value) (d : dict) :
  hash_value k = Ok a ->
  key_atoms (dict_store a k v d)
  = if decide (Ok a ∈ key_atoms d) then key_atoms d else key_atoms d ++ [Ok a].
Proof.
  intros Hk. destruct (decide _) as [Hin|Hnin].
  - unfold key_atoms in *. induction d as [|[k' v'] d IH]; simpl in *.
    + by apply elem_of_nil in Hin.
    + destruct (key_is a k') eqn:Hk'; [done|]. simpl. f_equal. apply IH.
      apply elem_of_cons in Hin as [Heq|Hin]; [|done].
      symmetry in Heq. apply key_is_hash in Heq. congruence.
  - rewrite dict_store_absent by done. unfold key_atoms.
    rewrite !fmap_app. simpl. by rewrite Hk.
Qed.

Lemma store_item_distinct (d d' : dict) (kv : value * value) :
  store_item d kv = Ok d' -> distinct_keys d -> distinct_keys d'.
Proof.
  unfold store_item, distinct_keys. destruct kv as [k v]. simpl.
  destruct (hash_value k) as [a|] eqn:Hk; simpl; [|done].
  intros [= <-] [Hok Hnd]. rewrite (key_atoms_store a k v d Hk).
  destruct (decide _) as [Hin|Hnin]; [done|]. split.
  - apply Forall_app. split; [done|]. by constructor.
  - apply NoDup_app. split_and!; [done| |apply NoDup_singleton].
    intros x Hx ->%list_elem_of_singleton. done.
Qed.

Lemma store_items_distinct (entries : list (value * value)) (d d' : dict) :
  for_each store_item entries d = Ok d' -> distinct_keys d -> distinct_keys d'.
Proof.
  revert d. induction entries as [|kv entries IH]; intros d Hrun Hd; simpl in Hrun.
  - by injection Hrun as <-.
  - destruct (store_item d kv) as [d1|] eqn:H1; simpl in Hrun; [|done].
    eapply IH; [done|]. by eapply store_item_distinct.
Qed.

(** Storing the entries of a dict with distinct keys, in order, builds that
    dict again. *)
Lemma store_items_rebuild (t acc : dict) :
  distinct_keys (acc ++ t) -> for_each store_item t acc = Ok (acc ++ t).
Proof.
  revert acc. induction t as [|[k v] t IH]; intros acc Hd; simpl.
  - by rewrite app_nil_r.
  - destruct Hd as [Hok Hnd]. unfold key_atoms in Hok, Hnd.
    rewrite fmap_app, fmap_app in Hok, Hnd. simpl in Hok, Hnd.
    apply Forall_app in Hok as Hok'. destruct Hok' as [_ Hk].
    apply Forall_cons in Hk as [Hk _].
    unfold store_item. simpl. destruct (hash_value k) as [a|] eqn:Ha; [|done]. simpl.
    rewrite dict_store_absent.
    + rewrite IH; [by rewrite <- app_assoc|].
      rewrite <- app_assoc. simpl. split; unfold key_atoms;
        rewrite fmap_app, fmap_app; simpl; by rewrite Ha.
    + apply NoDup_app in Hnd as (_ & Hdisj & _). intros Hin.
      apply (Hdisj _ Hin). left.
Qed.

(** *** What a merged record looks like *)

Lemma merge_group_shape (pages : list dict) (m : dict) :
  merge_group pages = Ok m -> merged_shape m.
Proof.
  intros Hm. destruct (merge_group_tax _ _ Hm) as (t & Ht & Hstore).
  unfold merge_group in Hm. destruct pages as [|p0 rest]; [done|].
  destruct (for_each merge_page _ _) as [m1|] eqn:H1; simpl in Hm; [|done].
  eapply merge_pages_spec in H1 as (xss & Hxss & Hl & _);
    [|rewrite dict_get_set_ne by ne_keys; apply dict_get_set_eq].
  simpl in Hl. rewrite (proj2 (getitem_Ok _ _ _) Hl) in Hm. simpl in Hm.
  destruct (for_each unique_step _ _) as [st|] eqn:Hu; simpl in Hm; [|done].
  pose proof (MergeTheorems.unique_items_keys _ _ _ Hu) as Hkeys.
  apply unique_items_spec in Hu as [_ Hu].
  exists (first_by item_key (concat xss)), t. split_and!.
  - injection Hm as <-. by rewrite dict_get_set_eq, Hu.
  - rewrite Forall_forall in Hkeys |- *. intros it Hit. apply Hkeys.
    eapply elem_of_sublist; [done|apply first_by_sublist].
  - apply first_by_NoDup.
  - done.
  - eapply store_items_distinct; [done|]. split; [constructor|apply NoDup_nil_2].
Qed.

(** A record of that shape, merged as the only page of its group, comes
    back as it is. *)
Lemma merge_group_fixed (m : dict) : merged_shape m -> merge_group [m] = Ok m.
Proof.
  intros (items & t & Hl & Hok & Hnd & Ht & Hdist).
  assert (Hli : is_Some (dict_get "line_items" m)) by eauto.
  assert (Htb : is_Some (dict_get "tax_breakdown" m)) by eauto.
  unfold merge_group. cbn [for_each].
  set (m0 := dict_set "tax_breakdown" (VDict []) (dict_set "line_items" (VList []) m)).
  assert (Hpage : merge_page m0 m
    = Ok (dict_set "tax_breakdown" (VDict t) (dict_set "line_items" (VList items) m0))).
  { unfold merge_page.
    assert (H0 : dict_get "line_items" m0 = Some (VList [])).
    { unfold m0. rewrite dict_get_set_ne by ne_keys. apply dict_get_set_eq. }
    rewrite (proj2 (getitem_Ok _ _ _) H0). cbn [rbind].
    unfold get_or. rewrite Hl.
    change (default (VList []) (Some (VList items))) with (VList items).
    cbn [list_extend iter_value rbind app].
    set (m1 := dict_set "line_items" (VList items) m0).
    assert (H1 : dict_get "tax_breakdown" m1 = Some (VDict [])).
    { unfold m1, m0. rewrite dict_get_set_ne by ne_keys. apply dict_get_set_eq. }
    assert (Hsub : forall k m2, dict_get k m2 = dict_get k m ->
      (if truthy (get k m) then let! v := getitem k m in Ok (dict_set k v m2) else Ok m2)
      = Ok m2).
    { intros k m2 Hm2. destruct (truthy (get k m)) eqn:Htr; [|done].
      apply truthy_get in Htr. rewrite (proj2 (getitem_Ok _ _ _) Htr). cbn [rbind].
      f_equal. apply dict_set_same. by rewrite Hm2. }
    assert (Hm2 : forall k', u "line_items" <> u k' -> u "tax_breakdown" <> u k' ->
      dict_get k' (dict_set "tax_breakdown" (VDict t) m1) = dict_get k' m).
    { intros k' Hk1 Hk2. unfold m1, m0. by rewrite !dict_get_set_ne by done. }
    assert (Htax : (if truthy (get "tax_breakdown" m)
                    then let! t0 := getitem "tax_breakdown" m1 in
                         let! other := getitem "tax_breakdown" m in
                         let! t' := dict_update t0 other in
                         Ok (dict_set "tax_breakdown" t' m1)
                    else Ok m1) = Ok (dict_set "tax_breakdown" (VDict t) m1)).
    { unfold get. rewrite Ht.
      change (default VNone (Some (VDict t))) with (VDict t). destruct t as [|kv t'].
      - cbn [truthy]. f_equal. symmetry. by apply dict_set_same.
      - cbn [truthy]. rewrite (proj2 (getitem_Ok _ _ _) H1).
        rewrite (proj2 (getitem_Ok _ _ _) Ht). cbn [rbind]. unfold dict_update.
        by rewrite (store_items_rebuild (kv :: t') [] Hdist). }
    rewrite Htax. cbn [rbind].
    rewrite (Hsub "subtotal"%string) by (apply Hm2; ne_keys). cbn [rbind].
    apply (Hsub "total"%string). apply Hm2; ne_keys. }
  rewrite Hpage. cbn [rbind].
  set (m2 := dict_set "tax_breakdown" (VDict t) (dict_set "line_items" (VList items) m0)).
  assert (H2 : dict_get "line_items" m2 = Some (VList items)).
  { unfold m2. rewrite dict_get_set_ne by ne_keys. apply dict_get_set_eq. }
  rewrite (proj2 (getitem_Ok _ _ _) H2). cbn [rbind iter_value].
  destruct (unique_items_returns items ([], [])) as [st Hst].
  { apply forallb_forall. rewrite Forall_forall in Hok. intros it Hit.
    apply Hok. by apply list_elem_of_In. }
  rewrite Hst. cbn [rbind]. apply unique_items_spec in Hst as [_ ->].
  rewrite first_by_NoDup_id by done. f_equal.
  unfold m2, m0.
  rewrite (dict_set_comm "tax_breakdown"%string "line_items"%string (VDict []) (VList []))
    by (ne_keys || eauto).
  rewrite dict_set_twice.
  rewrite (dict_set_comm "tax_breakdown"%string "line_items"%string (VDict t) (VList items)).
  - rewrite !dict_set_twice.
    rewrite (dict_set_same "tax_breakdown"%string) by done. by apply dict_set_same.
  - ne_keys.
  - rewrite dict_get_set_eq. eauto.
  - rewrite dict_get_set_ne by ne_keys. done.
Qed.

Lemma filter_key_singleton {A K : Type} `{EqDecision K} (key : A -> K)
    (l : list A) (p : A) :
  NoDup (key <$> l) -> p ∈ l -> filter (fun q => key q = key p) l = [p].
Proof.
  induction l as [|x l IH]; simpl; [by intros _ ?%elem_of_nil|].
  rewrite NoDup_cons. intros [Hx Hnd] [->|Hp]%elem_of_cons.
  - rewrite filter_cons_True by done. f_equal. apply filter_none.
    intros y Hy Heq. apply Hx. rewrite <- Heq. by apply list_elem_of_fmap_2.
  - rewrite filter_cons_False; [by apply IH|].
    intros Heq. apply Hx. rewrite Heq. by apply list_elem_of_fmap_2.
Qed.

(** X10. Merging is stable: what [merge_multipage_invoices] returns, it
    returns unchanged when given its own output.  Every merged record has
    its own grouping key, its line items are already distinct, its
    [tax_breakdown] is rebuilt entry by entry into the same dict and its
    totals are written over themselves. *)
Theorem merge_is_stable (invs out : list dict) :
  merge_multipage_invoices invs = Ok out ->
  merge_multipage_invoices out = Ok out
  /\ Forall merged_shape out.
Proof.
  intros Hrun. destruct (merged_keys _ _ Hrun) as (_ & Hnd & Hok).
  assert (Hshape : Forall merged_shape out).
  { apply merge_groups in Hrun as (grouped & _ & Hout).
    apply Forall_forall. intros m Hm. apply list_elem_of_lookup in Hm as [i Hi].
    destruct (Forall2_lookup_r _ _ _ _ _ Hout Hi) as (g & _ & Hg).
    by eapply merge_group_shape. }
  split; [|done]. apply merge_groups.
  destruct (group_pages_returns out) as [grouped Hg].
  { apply forallb_forall. rewrite Forall_forall in Hok. intros m Hm.
    apply Hok. by apply list_elem_of_In. }
  exists grouped. split; [done|].
  pose proof (group_pages_spec _ _ Hg) as Hspec.
  rewrite first_by_NoDup_id in Hspec by done.
  eapply Forall2_impl_elem; [exact Hspec|]. intros g m _ Hm [_ ->].
  rewrite filter_key_singleton by done.
  apply merge_group_fixed. rewrite Forall_forall in Hshape. by apply Hshape.
Qed.

End MergeStable.

Module MergeErrors.
Import Merge MergeFacts MoreMergeFields.

Lemma for_each_raises_inv {A S : Type} (body : S -> A -> result S)
    (I : S -> Prop) (P : exn -> Prop) (xs : list A) (st : S) (e : exn) :
  (forall s x s', I s -> body s x = Ok s' -> I s') ->
  (forall s x e', I s -> x ∈ xs -> body s x = Raise e' -> P e') ->
  I st -> for_each body xs st = Raise e -> P e.
Proof.
  intros Hkeep. revert st. induction xs as [|x xs IH]; intros st Hbody Hst Hrun; [done|].
  simpl in Hrun. destruct (body st x) as [s|e'] eqn:Hb; simpl in Hrun.
  - eapply (IH s); [|by eapply Hkeep|done].
    intros s0 y e' Hs0 Hy. apply Hbody; [done|by right].
  - injection Hrun as <-. eapply Hbody; [done|left|done].
Qed.

Lemma iter_value_raises (x : value) (e : exn) : iter_value x = Raise e -> e = TypeError.
Proof. destruct x; simpl; congruence. Qed.

Lemma pair_of_raises (x : value) (e : exn) :
  pair_of x = Raise e -> e = TypeError \/ e = ValueError.
Proof.
  unfold pair_of. destruct (iter_value x) as [xs|e'] eqn:Hx; simpl.
  - destruct xs as [|? [|? [|? ?]]]; intros [= <-]; by right.
  - intros [= <-]. left. by eapply iter_value_raises.
Qed.

Lemma store_item_raises (d : dict) (kv : value * value) (e : exn) :
  store_item d kv = Raise e -> e = TypeError.
Proof.
  unfold store_item. destruct (hash_value kv.1) eqn:Hk; simpl; [done|].
  intros [= <-]. by eapply MoreDedup.hash_value_raises.
Qed.

Lemma dict_update_raises (t : dict) (other : value) (e : exn) :
  dict_update (VDict t) other = Raise e -> e = TypeError \/ e = ValueError.
Proof.
  assert (Hpairs : forall xs d,
    for_each (fun d x => let! kv := pair_of x in store_item d kv) xs d = Raise e ->
    e = TypeError \/ e = ValueError).
  { intros xs d. apply (MoreDedup.for_each_raises _ (fun e => e = TypeError \/ e = ValueError)).
    intros s x e'. cbn beta. destruct (pair_of x) as [kv|e2] eqn:Hp; simpl.
    - intros He. left. by eapply store_item_raises.
    - intros [= <-]. by eapply pair_of_raises. }
  assert (Hiter : forall xs,
    (let! d' := for_each (fun d x => let! kv := pair_of x in store_item d kv) xs t in
     Ok (VDict d')) = Raise e -> e = TypeError \/ e = ValueError).
  { intros xs. destruct (for_each _ xs t) eqn:Hf; simpl; [done|].
    intros [= <-]. by eapply Hpairs. }
  unfold dict_update.
  destruct other as [| | | |s|xs|d2]; simpl; try (intros [= <-]; by left).
  - apply Hiter.
  - apply Hiter.
  - destruct (for_each store_item d2 t) eqn:Hf; simpl; [done|].
    intros [= <-]. left.
    eapply (MoreDedup.for_each_raises store_item (fun e => e = TypeError)); [|done].
    intros s x e'. apply store_item_raises.
Qed.

Lemma merge_page_merging (m p m' : dict) :
  merging m -> merge_page m p = Ok m' -> merging m'.
Proof.
  intros [[l Hl] [t Ht]] Hrun. split.
  - destruct (merge_page_spec _ _ _ _ Hrun Hl) as (xs & _ & Hl' & _). eauto.
  - destruct (merge_page_tax _ _ _ _ Hrun Ht) as (t' & Ht' & _). eauto.
Qed.

Lemma merge_page_raises (m p : dict) (e : exn) :
  merging m -> merge_page m p = Raise e -> merge_error e.
Proof.
  intros [[l Hl] [t Ht]]. unfold merge_page, merge_error.
  rewrite (proj2 (getitem_Ok _ _ _) Hl). cbn [rbind list_extend].
  destruct (iter_value _) as [xs|e1] eqn:Hx; cbn [rbind];
    [|intros [= <-]; left; by eapply iter_value_raises].
  set (m1 := dict_set "line_items" (VList (l ++ xs)) m).
  assert (H1 : dict_get "tax_breakdown" m1 = Some (VDict t))
    by (unfold m1; by rewrite dict_get_set_ne by ne_keys).
  clearbody m1.
  match goal with |- (let! x := ?r in _) = _ -> _ =>
    destruct r as [m2|e2] eqn:H2; cbn [rbind] end.
  - match goal with |- (let! x := ?r in _) = _ -> _ =>
      destruct r as [m3|e3] eqn:H3; cbn [rbind] end.
    + destruct (truthy (get "total" p)) eqn:Htr; [|done].
      by rewrite (proj2 (getitem_Ok _ _ _) (truthy_get _ _ Htr)).
    + destruct (truthy (get "subtotal" p)) eqn:Htr; [|done].
      by rewrite (proj2 (getitem_Ok _ _ _) (truthy_get _ _ Htr)) in H3.
  - intros [= <-]. destruct (truthy (get "tax_breakdown" p)) eqn:Htr; [|done].
    rewrite (proj2 (getitem_Ok _ _ _) H1) in H2.
    rewrite (proj2 (getitem_Ok _ _ _) (truthy_get _ _ Htr)) in H2. cbn [rbind] in H2.
    destruct (dict_update _ _) as [v|e4] eqn:Hupd; cbn [rbind] in H2; [done|].
    injection H2 as <-. apply dict_update_raises in Hupd. tauto.
Qed.

Lemma item_key_raises (item : value) (e : exn) :
  item_key item = Raise e -> e = TypeError \/ e = AttributeError.
Proof.
  unfold item_key. destruct item; try (intros [= <-]; by right).
  repeat (match goal with
          | |- context [hash_value ?v] =>
              destruct (hash_value v) eqn:?; simpl;
              [|intros [= <-]; left; by eapply MoreDedup.hash_value_raises]
          end).
  done.
Qed.

Lemma merge_group_raises (pages : list dict) (e : exn) :
  pages <> [] -> merge_group pages = Raise e -> merge_error e.
Proof.
  unfold merge_group. destruct pages as [|first rest]; [done|]. intros _.
  set (m0 := dict_set "tax_breakdown" (VDict [])
               (dict_set "line_items" (VList []) first)).
  assert (H0 : merging m0).
  { split.
    - exists []. unfold m0. rewrite dict_get_set_ne by ne_keys. apply dict_get_set_eq.
    - exists []. apply dict_get_set_eq. }
  clearbody m0.
  destruct (for_each merge_page (first :: rest) m0) as [m1|e1] eqn:H1; cbn [rbind].
  - assert (Hm1 : merging m1).
    { clear -H0 H1. revert m0 H0 H1. generalize (first :: rest).
      induction l as [|p l IH]; intros m0 H0 H1; simpl in H1; [congruence|].
      destruct (merge_page m0 p) as [m2|] eqn:H2; simpl in H1; [|done].
      eapply IH; [|done]. by eapply merge_page_merging. }
    destruct Hm1 as [[l Hl] _]. rewrite (proj2 (getitem_Ok _ _ _) Hl).
    cbn [rbind iter_value].
    destruct (for_each unique_step l ([], [])) as [st|e2] eqn:Hu; cbn [rbind]; [done|].
    intros [= <-].
    eapply (MoreDedup.for_each_raises unique_step merge_error); [|exact Hu].
    intros s x e'. unfold unique_step.
    destruct (item_key x) as [k|e3] eqn:Hk; simpl.
    + by destruct (bool_decide _).
    + intros [= <-]. apply item_key_raises in Hk. unfold merge_error. tauto.
  - intros [= <-].
    eapply (for_each_raises_inv merge_page merging merge_error); [| |exact H0|exact H1].
    + intros s x s'. apply merge_page_merging.
    + intros s x e' Hs _. by apply merge_page_raises.
Qed.

Lemma page_key_raises (p : dict) (e : exn) : page_key p = Raise e -> e = TypeError.
Proof.
  unfold page_key.
  repeat (match goal with
          | |- context [hash_value ?v] =>
              destruct (hash_value v) eqn:?; simpl;
              [|intros [= <-]; by eapply MoreDedup.hash_value_raises]
          end).
  done.
Qed.

Lemma groups_nonempty (invs : list dict) (grouped : list (key * list dict)) :
  group_pages invs = Ok grouped -> Forall (fun g => g.2 <> []) grouped.
Proof.
  intros Hg. pose proof (group_heads _ _ Hg) as Hheads.
  apply Forall_forall. intros g Hin. apply list_elem_of_lookup in Hin as [i Hi].
  destruct (Forall2_lookup_l _ _ _ _ _ Hheads Hi) as (p & _ & Hp).
  by destruct g.2.
Qed.

(** X8. The merge raises nothing but [TypeError], [AttributeError] and
    [ValueError]: the subscripts [pages[0]], [merged["line_items"]],
    [page_inv["tax_breakdown"]], [page_inv["subtotal"]] and
    [page_inv["total"]] never fail, so there is no [KeyError] and no
    [IndexError].  Each of the three does occur: a grouping field that is a
    list, a line item that is no object, a [tax_breakdown] list whose
    element is no pair. *)
Theorem merge_raises_only :
  (forall invs e, merge_multipage_invoices invs = Raise e ->
     merge_error e /\ e <> KeyError /\ e <> IndexError)
  /\ merge_multipage_invoices [page_with_list_number] = Raise TypeError
  /\ merge_multipage_invoices [page_with_number_item] = Raise AttributeError
  /\ merge_multipage_invoices [page_with_unpaired_tax] = Raise ValueError.
Proof.
  split; [|by vm_compute]. intros invs e Hrun.
  assert (He : merge_error e).
  { unfold merge_multipage_invoices in Hrun.
    destruct (group_pages invs) as [grouped|e1] eqn:Hg; cbn [rbind] in Hrun.
    - pose proof (groups_nonempty _ _ Hg) as Hne. rewrite Forall_forall in Hne.
      eapply (for_each_raises_inv _ (fun _ => True) merge_error);
        [done| |exact I|exact Hrun].
      intros s g e' _ Hin. cbn beta.
      destruct (merge_group g.2) as [m|e2] eqn:Hm; simpl; [done|].
      intros [= <-]. eapply merge_group_raises; [|done]. by apply Hne.
    - injection Hrun as <-. left. unfold group_pages in Hg.
      eapply (MoreDedup.for_each_raises _ (fun e => e = TypeError)); [|exact Hg].
      intros s p e'. cbn beta. destruct (page_key p) eqn:Hp; simpl; [done|].
      intros [= <-]. by eapply page_key_raises. }
  split; [done|]. destruct He as [->|[->| ->]]; done.
Qed.

End MergeErrors.

Module Pipeline.
Import MoreIngest MoreService.

Lemma process_stages (rt : py_runtime) (post : page -> http_outcome) (pdf : pdf_source)
    (out : output) :
  process_invoice_pdf rt post pdf = Ok out ->
  exists pages extracted merged,
    load_and_split_pdf pdf = Ok pages
    /\ extract_invoices_from_pages rt post pages = Ok extracted
    /\ Merge.merge_multipage_invoices extracted = Ok merged
    /\ Dedup.deduplicate_invoices merged = Ok (invoices out)
    /\ Format.format_as_markdown rt (invoices out) = Ok (markdown out)
    /\ json out = json_dumps rt (invoices out).
Proof.
  unfold process_invoice_pdf. intros Hrun.
  destruct (load_and_split_pdf pdf) as [pages|] eqn:Hload; cbn [rbind] in Hrun; [|done].
  destruct (extract_invoices_from_pages rt post pages) as [extracted|] eqn:Hex;
    cbn [rbind] in Hrun; [|done].
  destruct (Merge.merge_multipage_invoices extracted) as [merged|] eqn:Hm;
    cbn [rbind] in Hrun; [|done].
  destruct (Dedup.deduplicate_invoices merged) as [deduped|] eqn:Hd;
    cbn [rbind] in Hrun; [|done].
  destruct (Format.format_as_markdown rt deduped) as [md|] eqn:Hf;
    cbn [rbind] in Hrun; [|done].
  injection Hrun as <-. by exists pages, extracted, merged.
Qed.

Lemma deduplicate_after_merge_id (invs merged out : list dict) :
  Merge.merge_multipage_invoices invs = Ok merged ->
  Dedup.deduplicate_invoices merged = Ok out -> out = merged.
Proof.
  intros Hm. unfold Dedup.deduplicate_invoices.
  destruct (Dedup.run merged) as [st|] eqn:Hst; simpl; [|done].
  intros [= <-]. by destruct (MoreDedup.run_after_merge _ _ _ Hm Hst).
Qed.

Lemma Forall2_in_r {A B : Type} (R : A -> B -> Prop) (l : list A) (k : list B) (y : B) :
  Forall2 R l k -> y ∈ k -> exists x, x ∈ l /\ R x y.
Proof.
  intros HR Hy. apply list_elem_of_lookup in Hy as [i Hi].
  destruct (Forall2_lookup_r _ _ _ _ _ HR Hi) as (x & Hx & Hxy).
  exists x. split; [|done]. by eapply list_elem_of_lookup_2.
Qed.

(** X11. What a run of the pipeline returns.  The invoices are the merged
    records, none removed by the deduplication; the report and the JSON text
    are made from them.  There are at most as many invoices as the document
    has pages; no two share a grouping key or a [source_page]; each has
    [type] "invoice" and as [source_page] the number of a page that was
    loaded and that the model answered with an invoice. *)
Theorem process_returns_merged_invoices (rt : py_runtime) (post : page -> http_outcome)
    (pdf : pdf_source) (out : output) :
  process_invoice_pdf rt post pdf = Ok out ->
  exists srcs pages extracted,
    pdf = Opened srcs
    /\ load_and_split_pdf pdf = Ok pages
    /\ extract_invoices_from_pages rt post pages = Ok extracted
    /\ Merge.merge_multipage_invoices extracted = Ok (invoices out)
    /\ Format.format_as_markdown rt (invoices out) = Ok (markdown out)
    /\ json out = json_dumps rt (invoices out)
    /\ (length (invoices out) <= length srcs)%nat
    /\ NoDup (Merge.page_key <$> invoices out)
    /\ NoDup (get "source_page" <$> invoices out)
    /\ Forall (fun inv =>
         get "type" inv = VStr (u "invoice")
         /\ exists pg answer,
              pg ∈ pages
              /\ get "source_page" inv = VInt (page_num pg)
              /\ call_ollama rt (post pg) = Ok (VDict answer)
              /\ get "type" answer = VStr (u "invoice")) (invoices out).
Proof.
  intros Hrun.
  apply process_stages in Hrun as (pages & extracted & merged & Hload & Hex & Hm & Hd & Hf & Hj).
  rewrite (deduplicate_after_merge_id _ _ _ Hm Hd) in *. clear Hd.
  destruct (loaded_pages pdf pages Hload) as (srcs & -> & Hnd & Hlen).
  exists srcs, pages, extracted. split_and!; try done.
  all: destruct (extract_records _ _ _ _ Hex) as (kept & Hsub & Hrec).
  all: pose proof (MoreMergeFields.merged_first_fields _ _ Hm) as Hfirst.
  all: pose proof (first_by_sublist Merge.page_key extracted) as Hfb.
  - rewrite <- (Forall2_length _ _ _ Hfirst).
    apply sublist_length in Hfb, Hsub. rewrite <- (Forall2_length _ _ _ Hrec) in Hfb. lia.
  - by destruct (MoreMerge.merged_keys _ _ Hm) as (_ & ? & _).
  - assert (Heq1 : get "source_page" <$> merged
                   = get "source_page" <$> first_by Merge.page_key extracted).
    { symmetry. apply MoreMerge.Forall2_fmap_eq.
      eapply Forall2_impl; [exact Hfirst|]. intros p m Hk.
      unfold get. rewrite Hk; [done|]. split_and!; ne_keys. }
    assert (Heq2 : get "source_page" <$> extracted
                   = (fun pg => VInt (page_num pg)) <$> kept).
    { symmetry. apply MoreMerge.Forall2_fmap_eq.
      eapply Forall2_impl; [exact Hrec|]. by intros pg d (-> & _). }
    rewrite Heq1. eapply sublist_NoDup; [|by apply fmap_sublist].
    rewrite Heq2. eapply sublist_NoDup; [|by apply fmap_sublist].
    rewrite (list_fmap_compose page_num VInt).
    apply NoDup_fmap_2; [|done]. by intros x y [= ->].
  - apply Forall_forall. intros m Hin.
    destruct (Forall2_in_r _ _ _ _ Hfirst Hin) as (p & Hp & Hk).
    assert (Hp' : p ∈ extracted) by (by eapply elem_of_sublist).
    destruct (Forall2_in_r _ _ _ _ Hrec Hp') as (pg & Hpg & Hsrc & Htype & answer & Hcall & Hans).
    assert (Hget : forall k, untouched k -> get k m = get k p)
      by (intros k Hu; unfold get; by rewrite Hk).
    split.
    + rewrite Hget by (split_and!; ne_keys). done.
    + exists pg, answer. split_and!.
      * by eapply elem_of_sublist.
      * rewrite Hget by (split_and!; ne_keys). done.
      * done.
      * unfold get in *. rewrite <- Hans by ne_keys. done.
Qed.



End Pipeline.

Module PipelineReturns.
Import Merge MergeFacts MergeReturns MoreIngest MoreMergeFields.










End PipelineReturns.

Module MergeOrder.
Import Merge MergeFacts MergeReturns.

Lemma group_pages_ok (invs : list dict) :
  is_ok (group_pages invs) = forallb (fun p => is_ok (page_key p)) invs.
Proof.
  unfold group_pages. generalize (@nil (key * list dict)).
  induction invs as [|p invs IH]; intros g; simpl; [done|].
  destruct (page_key p); simpl; [apply IH|done].
Qed.

Lemma group_pages_raises (invs : list dict) (e : exn) :
  group_pages invs = Raise e -> e = TypeError.
Proof.
  unfold group_pages. apply (MoreDedup.for_each_raises _ (fun e => e = TypeError)).
  intros s p e'. cbn beta. destruct (page_key p) eqn:Hp; simpl; [done|].
  intros [= <-]. by eapply MergeErrors.page_key_raises.
Qed.

(** The groups are determined by the keys in the order of their first
    occurrence and by the pages of each key. *)
Lemma groups_determined (invs invs' : list dict) (grouped grouped' : list (key * list dict)) :
  page_key <$> first_by page_key invs = page_key <$> first_by page_key invs' ->
  Forall (fun p => pages_of p invs = pages_of p invs') (first_by page_key invs) ->
  group_pages invs = Ok grouped -> group_pages invs' = Ok grouped' ->
  grouped = grouped'.
Proof.
  intros Hkeys Hpages Hg Hg'.
  pose proof (group_pages_spec _ _ Hg) as Hspec.
  pose proof (group_pages_spec _ _ Hg') as Hspec'.
  apply list_eq. intros i.
  destruct (grouped !! i) as [g|] eqn:Hi.
  - destruct (Forall2_lookup_l _ _ _ _ _ Hspec Hi) as (p & Hp & Hk & Hps).
    assert (Hp' : is_Some (first_by page_key invs' !! i)).
    { apply lookup_lt_is_Some. apply lookup_lt_Some in Hp.
      apply (f_equal length) in Hkeys. rewrite !length_fmap in Hkeys. lia. }
    destruct Hp' as [p' Hp'].
    destruct (Forall2_lookup_r _ _ _ _ _ Hspec' Hp') as (g' & Hi' & Hk' & Hps').
    rewrite Hi'. f_equal.
    assert (Hpp : page_key p = page_key p').
    { apply (f_equal (fun l => l !! i)) in Hkeys.
      rewrite !list_lookup_fmap, Hp, Hp' in Hkeys. simpl in Hkeys. congruence. }
    rewrite Forall_forall in Hpages.
    pose proof (Hpages p (list_elem_of_lookup_2 _ _ _ Hp)) as Hsame.
    unfold pages_of in Hsame.
    destruct g as [k ps], g' as [k' ps']. simpl in *. f_equal.
    + congruence.
    + rewrite Hps, Hps', Hsame. by rewrite Hpp.
  - symmetry. apply lookup_ge_None. apply lookup_ge_None in Hi.
    pose proof (Forall2_length _ _ _ Hspec) as Hl.
    pose proof (Forall2_length _ _ _ Hspec') as Hl'.
    apply (f_equal length) in Hkeys. rewrite !length_fmap in Hkeys. lia.
Qed.

(** X14. The merge does not depend on how the pages of different invoices
    are interleaved.  Two lists of pages in which the invoices first occur
    in the same order, and in which every invoice has the same pages in the
    same order, give the same merged records, or the same exception. *)
Theorem merge_ignores_interleaving (invs invs' : list dict) :
  page_key <$> first_by page_key invs = page_key <$> first_by page_key invs' ->
  Forall (fun p => pages_of p invs = pages_of p invs') (first_by page_key invs) ->
  merge_multipage_invoices invs = merge_multipage_invoices invs'.
Proof.
  intros Hkeys Hpages.
  assert (Hin : forall q, q ∈ invs' ->
    exists p, p ∈ first_by page_key invs /\ page_key p = page_key q).
  { intros q Hq.
    assert (Hk : page_key q ∈ page_key <$> first_by page_key invs).
    { rewrite Hkeys. apply first_by_keys. by apply list_elem_of_fmap_2. }
    apply list_elem_of_fmap in Hk as (p & Hpq & Hp). eauto. }
  assert (Hin' : forall q, q ∈ invs ->
    exists p, p ∈ first_by page_key invs /\ page_key p = page_key q).
  { intros q Hq.
    assert (Hk : page_key q ∈ page_key <$> first_by page_key invs)
      by (apply first_by_keys; by apply list_elem_of_fmap_2).
    apply list_elem_of_fmap in Hk as (p & Hpq & Hp). eauto. }
  assert (Hsame : forall q, q ∈ invs <-> q ∈ invs').
  { rewrite Forall_forall in Hpages. intros q. split; intros Hq.
    - destruct (Hin' q Hq) as (p & Hp & Hpq).
      assert (Hq' : q ∈ pages_of p invs) by (apply list_elem_of_filter; by split).
      rewrite (Hpages p Hp) in Hq'. by apply list_elem_of_filter in Hq' as [_ ?].
    - destruct (Hin q Hq) as (p & Hp & Hpq).
      assert (Hq' : q ∈ pages_of p invs') by (apply list_elem_of_filter; by split).
      rewrite <- (Hpages p Hp) in Hq'. by apply list_elem_of_filter in Hq' as [_ ?]. }
  assert (Hok : is_ok (group_pages invs) = is_ok (group_pages invs')).
  { rewrite !group_pages_ok. apply eq_true_iff_eq.
    rewrite !forallb_forall. split; intros Hall q Hq; apply Hall;
      apply list_elem_of_In; apply list_elem_of_In in Hq; by apply Hsame. }
  unfold merge_multipage_invoices.
  destruct (group_pages invs) as [grouped|e] eqn:Hg,
           (group_pages invs') as [grouped'|e'] eqn:Hg'; try done.
  - by rewrite (groups_determined _ _ _ _ Hkeys Hpages Hg Hg').
  - simpl. by rewrite (group_pages_raises _ _ Hg), (group_pages_raises _ _ Hg').
Qed.

End MergeOrder.

Module StageLaws.

(** A loop whose body only appends to what was collected can be run on the
    parts of its input. *)
Lemma for_each_local {A B : Type} (body : list B -> A -> result (list B))
    (xs : list A) (acc : list B) :
  (forall acc x, body acc x = let! ys := body [] x in Ok (acc ++ ys)) ->
  for_each body xs acc = let! out := for_each body xs [] in Ok (acc ++ out).
Proof.
  intros Hbody. revert acc. induction xs as [|x xs IH]; intros acc; simpl.
  - by rewrite app_nil_r.
  - rewrite (Hbody acc x). destruct (body [] x) as [ys|]; simpl; [|done].
    rewrite (IH (acc ++ ys)), (IH ys).
    destruct (for_each body xs []) as [out|]; simpl; [|done].
    by rewrite app_assoc.
Qed.

Lemma for_each_parts {A B : Type} (body : list B -> A -> result (list B))
    (xs ys : list A) :
  (forall acc x, body acc x = let! ys := body [] x in Ok (acc ++ ys)) ->
  for_each body (xs ++ ys) []
  = let! a := for_each body xs [] in
    let! b := for_each body ys [] in
    Ok (a ++ b).
Proof.
  intros Hbody. rewrite for_each_app.
  destruct (for_each body xs []) as [a|]; simpl; [|done].
  by apply for_each_local.
Qed.

Lemma for_each_ext_in {A S : Type} (body body' : S -> A -> result S) (xs : list A)
    (st : S) :
  (forall s x, x ∈ xs -> body s x = body' s x) ->
  for_each body xs st = for_each body' xs st.
Proof.
  revert st. induction xs as [|x xs IH]; intros st Hbody; simpl; [done|].
  rewrite (Hbody st x) by left. destruct (body' st x); simpl; [|done].
  apply IH. intros s y Hy. apply Hbody. by right.
Qed.

(** X15. The extraction is page by page: what it appends for a page
    depends on the request made for that page only, not on the other pages
    nor on the records collected so far.  So extracting from two runs of
    pages one after the other is extracting from each and joining the
    records, with the exception of the first run if it raises, else of the
    second; and two services that answer the pages of a document alike give
    the same outcome. *)
Theorem extract_is_pagewise (rt : py_runtime) (post : page -> http_outcome) :
  (forall xs ys,
     extract_invoices_from_pages rt post (xs ++ ys)
     = let! a := extract_invoices_from_pages rt post xs in
       let! b := extract_invoices_from_pages rt post ys in
       Ok (a ++ b))
  /\ (forall post' pages,
        (forall pg, pg ∈ pages -> post pg = post' pg) ->
        extract_invoices_from_pages rt post pages
        = extract_invoices_from_pages rt post' pages).
Proof.
  split.
  - intros xs ys. unfold extract_invoices_from_pages. apply for_each_parts.
    intros acc pg. unfold extract_page.
    destruct (call_ollama rt (post pg)) as [[| | | | | |d]|]; simpl; try done.
    destruct (is_str _ _); simpl; [done|]. by rewrite app_nil_r.
  - intros post' pages Hsame. unfold extract_invoices_from_pages.
    apply for_each_ext_in. intros acc pg Hpg. unfold extract_page.
    by rewrite (Hsame pg Hpg).
Qed.

(** X16. The report is written invoice by invoice: the block of an invoice
    does not depend on the invoices around it.  The report of two lists of
    invoices one after the other is the report of the first followed by the
    report of the second, and the report of no invoice is empty. *)
Theorem format_is_invoicewise (rt : py_runtime) :
  (forall xs ys,
     Format.format_as_markdown rt (xs ++ ys)
     = let! a := Format.format_as_markdown rt xs in
       let! b := Format.format_as_markdown rt ys in
       Ok (a ++ b))
  /\ Format.format_as_markdown rt [] = Ok []
  /\ (forall inv, Format.format_as_markdown rt [inv] = Format.format_invoice rt inv).
Proof.
  split_and!.
  - intros xs ys. unfold Format.format_as_markdown.
    apply (for_each_parts (fun markdown_output inv =>
             let! block := Format.format_invoice rt inv in Ok (markdown_output ++ block))).
    intros acc inv. by destruct (Format.format_invoice rt inv).
  - done.
  - intros inv. unfold Format.format_as_markdown. simpl.
    by destruct (Format.format_invoice rt inv).
Qed.

End StageLaws.

Module MoreExamples.

(** X1 on the four sample pages. *)
Lemma deduplicate_after_merge_witness :
  Merge.merge_multipage_invoices mixed_pages = Ok mixed_merged
  /\ Dedup.deduplicate_invoices mixed_merged = Ok mixed_merged.
Proof.
  split; [reflexivity|].
  exact (proj1 (MoreDedup.deduplicate_after_merge mixed_pages mixed_merged eq_refl)).
Defined.



(** X5 on a fenced answer with a language tag. *)
Lemma fenced_answer_is_cut_witness :
  answer_text fenced_answer = Some fenced_text
  /\ decode_response sample_runtime (VDict fenced_answer)
     = json_loads sample_runtime (u "{}").
Proof.
  split; [reflexivity|].
  apply (proj1 (proj2 (MoreService.fenced_answer_is_cut sample_runtime fenced_answer
                         fenced_text eq_refl))
           (u "```json ") [] (u " ```")); try reflexivity.
  - apply (bool_decide_unpack _). vm_compute. exact I.
  - apply (bool_decide_unpack _). vm_compute. exact I.
Defined.

(** X6 on the sample document. *)
Lemma loaded_pages_numbered_witness :
  load_and_split_pdf sample_pdf = Ok sample_pages
  /\ NoDup (page_num <$> sample_pages)
  /\ 2 ∉ page_num <$> sample_pages.
Proof.
  split; [reflexivity|].
  destruct (MoreService.loaded_pages_numbered sample_pdf sample_pages eq_refl)
    as (srcs & Hsrcs & _ & Hnd & _ & _ & _ & Hgap).
  split; [assumption|]. injection Hsrcs as <-.
  exact (Hgap 1%nat (u "bad page") eq_refl).
Defined.

(** X7 on the four sample pages. *)
Lemma merge_keeps_first_page_fields_witness :
  Merge.merge_multipage_invoices mixed_pages = Ok mixed_merged
  /\ Forall2 (fun p m => get "type" m = get "type" p)
       (first_by Merge.page_key mixed_pages) mixed_merged.
Proof.
  split; [reflexivity|].
  eapply Forall2_impl;
    [exact (MoreMergeFields.merge_keeps_first_page_fields mixed_pages mixed_merged eq_refl)|].
  intros p m (_ & _ & Htype & _). exact Htype.
Defined.

(** X9 on the two taxed pages: [cgst] is the second page's. *)
Lemma merge_tax_breakdown_last_page_wins_witness :
  Merge.merge_multipage_invoices taxed_pages = Ok taxed_merged
  /\ get "tax_breakdown" <$> taxed_merged
     = [VDict [entry "cgst" (tax_of 18); entry "sgst" (tax_of 18)]]
  /\ exists grouped, Merge.group_pages taxed_pages = Ok grouped
       /\ length grouped = length taxed_merged.
Proof.
  split; [reflexivity|]. split; [reflexivity|].
  destruct (MoreMergeFields.merge_tax_breakdown_last_page_wins taxed_pages taxed_merged
              eq_refl) as (grouped & Hg & Htax).
  exists grouped. split; [assumption|]. exact (Forall2_length _ _ _ Htax).
Defined.

(** X10 on the four sample pages. *)
Lemma merge_is_stable_witness :
  Merge.merge_multipage_invoices mixed_pages = Ok mixed_merged
  /\ Merge.merge_multipage_invoices mixed_merged = Ok mixed_merged.
Proof.
  split; [reflexivity|].
  exact (proj1 (MergeStable.merge_is_stable mixed_pages mixed_merged eq_refl)).
Defined.

(** X11 on the sample document: pages 1 and 3 are one invoice, which
    carries the number of page 1. *)
Lemma process_returns_merged_invoices_witness :
  process_invoice_pdf scenario_runtime answers_object sample_pdf = Ok sample_output
  /\ get "source_page" <$> invoices sample_output = [VInt 1]
  /\ NoDup (get "source_page" <$> invoices sample_output)
  /\ (length (invoices sample_output) <= 3)%nat.
Proof.
  split; [reflexivity|]. split; [reflexivity|].
  destruct (Pipeline.process_returns_merged_invoices scenario_runtime answers_object
              sample_pdf sample_output eq_refl)
    as (srcs & pages & extracted & Hsrcs & _ & _ & _ & _ & _ & Hlen & _ & Hnd & _).
  split; [assumption|]. injection Hsrcs as <-. exact Hlen.
Defined.


(** X14 on the pages of Scenario A and a page of another invoice. *)
Lemma merge_ignores_interleaving_witness :
  Merge.page_key <$> first_by Merge.page_key interleaved_pages
  = Merge.page_key <$> first_by Merge.page_key contiguous_pages
  /\ interleaved_pages <> contiguous_pages
  /\ Merge.merge_multipage_invoices interleaved_pages
     = Merge.merge_multipage_invoices contiguous_pages.
Proof.
  split; [reflexivity|]. split; [discriminate|].
  apply MergeOrder.merge_ignores_interleaving; [reflexivity|].
  repeat constructor.
Defined.

End MoreExamples.
